(** * honeybadger-go: the reporting client and its context store

    A shallow embedding of [context.go] and [honeybadger.go].  Go values of
    type [interface{}] become a small tagged union, call stacks become lists
    of frames (innermost first) that are threaded through every call, the
    map behind a [Context] lives in an explicit store of map objects, and
    the packages the client calls into (runtime, os, fmt, regexp,
    encoding/json, net/http, path/filepath) are gathered in one record,
    [World]. *)

From Stdlib Require Import ZArith String Ascii List Lia.
From stdpp Require Import base option list gmap strings pretty.

Local Open Scope string_scope.

(** ** Go values *)

(** A Go [error] value, observed through its [Error()] method. *)
Record error := mkError { Error : string }.

(** The dynamic values that reach [Report], [Reportf] and the context. *)
Inductive value :=
| VNil                          (* the nil interface *)
| VError (e : error)            (* any value implementing [error] *)
| VString (s : string)
| VInt (n : Z)
| VBool (b : bool)
| VStrings (l : list string).   (* a []string *)

(** A Go result pair [(x, err)] with [err] nil or not. *)
Inductive result (A : Type) :=
| Ok (a : A)
| Fail (e : error).
Arguments Ok {A} a.
Arguments Fail {A} e.

(** What a call does: it returns, it is stopped by a fault of the runtime
    (a runtime error with the given reason), or it is stopped by a call of
    [panic(v)]. *)
Inductive outcome (A : Type) :=
| Done (a : A)
| Panic (reason : string)
| PanicWith (v : value).
Arguments Done {A} a.
Arguments Panic {A} reason.
Arguments PanicWith {A} v.

(** A panic passes through everything that waits for the result. *)
#[global] Instance outcome_bind : MBind outcome := λ A B f m,
  match m with
  | Done a => f a
  | Panic reason => Panic reason
  | PanicWith v => PanicWith v
  end.

#[global] Instance outcome_fmap : FMap outcome := λ A B f m,
  match m with
  | Done a => Done (f a)
  | Panic reason => Panic reason
  | PanicWith v => PanicWith v
  end.

(** ** context.go *)

(** A [Context] is a Go map, hence a reference: nil, or the address of a
    map object in the store.  An address that holds no object yet reads as
    the empty map. *)
Definition Context := option positive.

Abbreviation store := (gmap positive (gmap string value)).

Definition mapAt (h : store) (l : positive) : gmap string value :=
  default ∅ (h !! l).

(** [ctx[key]]: the zero value, nil, when the key is missing or the map is
    nil. *)
Definition Get (h : store) (ctx : Context) (key : string) : value :=
  match ctx with
  | None => VNil
  | Some l => default VNil (mapAt h l !! key)
  end.

(** [ctx[key] = value]: assignment to an entry of a nil map panics. *)
Definition Set_ (h : store) (ctx : Context) (key : string) (v : value)
  : outcome store :=
  match ctx with
  | None => Panic "assignment to entry in nil map"
  | Some l => Done (<[l := <[key := v]> (mapAt h l)]> h)
  end.

(** [delete(ctx, key)]: nothing happens on a nil map. *)
Definition Del (h : store) (ctx : Context) (key : string) : store :=
  match ctx with
  | None => h
  | Some l => <[l := delete key (mapAt h l)]> h
  end.

(** [make(Context)]: a new, empty map object at an unused address. *)
Definition makeContext (h : store) : Context * store :=
  let l := fresh (dom h) in (Some l, <[l := ∅]> h).

(** ** The client's data *)

(** One entry of a call stack: what [runtime.Caller] and [runtime.FuncForPC]
    report for it.  [frame_func] is [None] when the function cannot be
    resolved; [frame_line] is the line of the call in progress. *)
Record Frame := mkFrame {
  frame_func : option string;
  frame_file : string;
  frame_line : Z
}.

(** An entry of the notice's backtrace. *)
Record BacktraceEntry := mkEntry {
  entry_file : string;
  entry_number : Z;
  entry_method : string
}.

Record NotifierBlock := {
  notifier_name : string;
  notifier_url : string;
  notifier_language : string
}.

Record ErrorBlock := {
  error_class : string;
  error_message : string;
  error_backtrace : list BacktraceEntry
}.

Record CgiData := {
  cgi_GOARCH : string;
  cgi_GOOS : string;
  cgi_GOVER : string
}.

Record RequestBlock := {
  request_cgi_data : CgiData;
  request_context : Context
}.

Record ServerBlock := {
  server_environment_name : string;
  server_hostname : string;
  server_project_root : string
}.

(** The document [buildNotice] returns, block by block. *)
Record Notice := {
  notice_notifier : NotifierBlock;
  notice_error : ErrorBlock;
  notice_request : RequestBlock;
  notice_server : ServerBlock
}.

(** An [http.Request] as far as [Report] fills it in; the header maps a
    name to its values. *)
Record Request := {
  req_method : string;
  req_url : string;
  req_header : gmap string (list string);
  req_body : string
}.

(** An [http.Response]: its status code, and what reading its body to the
    end yields. *)
Record Response := {
  StatusCode : Z;
  Body : result string
}.

(** A compiled pattern, known by the text it was built from. *)
Record Regexp := anchoredLiteral { literal : string }.

(** Everything outside the package that the client consults.
    [MustCompile lit] stands for the one way the client compiles a pattern,
    [regexp.MustCompile("^" + regexp.QuoteMeta(lit))]: it yields the
    pattern, or the value the call panics with.  [rootFilter] is the
    package variable of that name, set when the package is initialised. *)
Record World := {
  GOROOT : string;                              (* runtime.GOROOT() *)
  GOARCH : string;                              (* runtime.GOARCH *)
  GOOS : string;                                (* runtime.GOOS *)
  Version : string;                             (* runtime.Version() *)
  Hostname : result string;                     (* os.Hostname() *)
  Dir : string → string;                        (* filepath.Dir *)
  Sprintf : string → list value → string;       (* fmt.Sprintf *)
  MustCompile : string → Regexp + value;
  ReplaceAllString : Regexp → string → string → string;
  rootFilter : Regexp;
  Marshal : store → Notice → result string;     (* json.Marshal *)
  Unmarshal_id : string → result string;        (* json.Unmarshal into {ID} *)
  NewRequest : string → string → string → result Request;
  Do : Request → option Response * option error; (* (&http.Client{}).Do *)
  LibFile : string                              (* where honeybadger.go lives *)
}.

Definition DefaultEndpoint := "https://api.honeybadger.io/v1/notices".
Definition DefaultNotifierName := "honeybadger-go".
Definition DefaultNotifierURL := "https://github.com/hashrabbit/honeybadger-go".

Module Client.
Record t := mk {
  APIKey : string;
  ProjectRoot : string;
  Context : Context;
  Endpoint : string;
  NotifierName : string;
  NotifierURL : string
}.
End Client.

(** ** The call stack *)

(** [runtime.Caller(skip)], asked by the function whose frame is the head
    of [stack]; [None] stands for [ok = false]. *)
Definition runtime_Caller (stack : list Frame) (skip : nat) : option Frame :=
  stack !! skip.

Definition pkg := "github.com/hashrabbit/honeybadger-go".

(** The package's own frames, each at the line of the call it makes. *)
Definition libFrame (W : World) (name : string) (ln : Z) : Frame :=
  mkFrame (Some (pkg +:+ name)) (LibFile W) ln.

Definition frame_New W := libFrame W ".New" 52.
Definition frame_detectProjectRoot W := libFrame W ".detectProjectRoot" 64.
Definition recv := "." +:+ "(" +:+ "*Client).".
Definition frame_Report W := libFrame W (recv +:+ "Report") 90.
Definition frame_Reportf W := libFrame W (recv +:+ "Reportf") 124.
Definition frame_buildNotice W := libFrame W (recv +:+ "buildNotice") 142.
Definition frame_stacktraceFrames W :=
  libFrame W (recv +:+ "stacktraceFrames") 177.

(** ** Construction *)

(** The loop of [detectProjectRoot]: [i] runs upward until [runtime.Caller]
    reports no frame.  [fuel] bounds the iterations; [detectProjectRoot]
    supplies more than the stack can use up. *)
Fixpoint detectLoop (fuel : nat) (stack : list Frame) (i : nat)
    (files : list string) : list string :=
  match fuel with
  | O => files
  | S fuel' =>
      match runtime_Caller stack i with
      | None => files
      | Some fr => detectLoop fuel' stack (S i) (files ++ [frame_file fr])
      end
  end.

(** [stk] is the stack at the call of [detectProjectRoot]: [New]'s frame
    first, then [New]'s callers. *)
Definition detectProjectRoot (W : World) (stk : list Frame) : string :=
  let stack := frame_detectProjectRoot W :: stk in
  let files := detectLoop (S (length stack)) stack 1 [] in
  if (length files <? 3)%nat then ""
  else Dir W (default "" (files !! (length files - 3)%nat)).

(** [New(apiKey)], called with the stack [stk] of its callers. *)
Definition New (W : World) (stk : list Frame) (h : store) (apiKey : string)
  : Client.t * store :=
  let root := detectProjectRoot W (frame_New W :: stk) in
  let '(ctx, h') := makeContext h in
  (Client.mk apiKey root ctx DefaultEndpoint DefaultNotifierName
     DefaultNotifierURL, h').

(** ** Path filtering *)

(** [stripPrefix p s] is the rest of [s] after a leading [p], if [s] starts
    with [p]. *)
Fixpoint stripPrefix (p s : string) : option string :=
  match p with
  | EmptyString => Some s
  | String a p' =>
      match s with
      | EmptyString => None
      | String b s' => if Ascii.eqb a b then stripPrefix p' s' else None
      end
  end.

(** An anchored literal read byte by byte: [repl] takes the place of a
    leading [lit], and a text that does not begin with [lit] is left
    alone. *)
Definition replacePrefix (lit src repl : string) : string :=
  match stripPrefix lit src with
  | Some rest => repl +:+ rest
  | None => src
  end.

(** [projectPat] is compiled on every call that has a project root; when
    [regexp.MustCompile] panics, so does [filterPath]. *)
Definition filterPath (W : World) (c : Client.t) (file : string)
  : outcome string :=
  let file := ReplaceAllString W (rootFilter W) file "[GO_ROOT]" in
  if negb (String.eqb (Client.ProjectRoot c) "") then
    match MustCompile W (Client.ProjectRoot c) with
    | inl projectPat =>
        Done (ReplaceAllString W projectPat file "[PROJECT_ROOT]")
    | inr v => PanicWith v
    end
  else Done file.

(** ** Building the notice *)

(** The loop of [stacktraceFrames], bounded like [detectLoop]. *)
Fixpoint stacktraceLoop (W : World) (c : Client.t) (fuel : nat)
    (stack : list Frame) (i : nat) (frames : list BacktraceEntry)
  : outcome (list BacktraceEntry) :=
  match fuel with
  | O => Done frames
  | S fuel' =>
      match runtime_Caller stack i with
      | None => Done frames
      | Some fr =>
          file ← filterPath W c (frame_file fr);
          let fname := match frame_func fr with
                       | Some name => name
                       | None => "unknown"
                       end in
          stacktraceLoop W c fuel' stack (S i)
            (frames ++ [mkEntry file (frame_line fr) fname])
      end
  end.

(** [stk] is the stack at the call of [stacktraceFrames]. *)
Definition stacktraceFrames (W : World) (c : Client.t) (stk : list Frame)
    (skip : nat) : outcome (list BacktraceEntry) :=
  let stack := frame_stacktraceFrames W :: stk in
  stacktraceLoop W c (S (length stack)) stack skip [].

(** [stk] is the stack at the call of [buildNotice]. *)
Definition buildNotice (W : World) (c : Client.t) (stk : list Frame)
    (message : string) (skip : nat) : outcome Notice :=
  let hostname := match Hostname W with
                  | Ok name => name
                  | Fail _ => ""
                  end in
  backtrace ← stacktraceFrames W c (frame_buildNotice W :: stk) (3 + skip);
  Done
    {| notice_notifier :=
         {| notifier_name := Client.NotifierName c;
            notifier_url := Client.NotifierURL c;
            notifier_language := "go" |};
       notice_error :=
         {| error_class := "";
            error_message := message;
            error_backtrace := backtrace |};
       notice_request :=
         {| request_cgi_data :=
              {| cgi_GOARCH := GOARCH W;
                 cgi_GOOS := GOOS W;
                 cgi_GOVER := Version W |};
            request_context := Client.Context c |};
       notice_server :=
         {| server_environment_name := "production";
            server_hostname := hostname;
            server_project_root := Client.ProjectRoot c |} |}.

(** ** Reporting *)

(** Where the response body stands when [Report] returns. *)
Inductive body_state :=
| NoResponse      (* the request never went out *)
| BodyOpen
| BodyClosed.

(** What [Report] hands back: the two results, and the state in which it
    leaves the response body. *)
Record Returned := mkReturned {
  ident : string;
  failure : option error;
  body : body_state
}.

(** [fmt.Errorf(format, a...)]: an error whose text is the formatted
    message. *)
Definition Errorf (W : World) (format : string) (a : list value) : error :=
  mkError (Sprintf W format a).

(** The bytes a header name may consist of: letters, digits and the other
    token characters of HTTP. *)
Definition validHeaderFieldByte (a : ascii) : bool :=
  let n := nat_of_ascii a in
  ((48 <=? n) && (n <=? 57) || (65 <=? n) && (n <=? 90)
   || (97 <=? n) && (n <=? 122)
   || bool_decide (n ∈ [33; 35; 36; 37; 38; 39; 42; 43; 45; 46; 94; 95; 96;
                        124; 126]))%nat.

Fixpoint allValidHeaderFieldBytes (s : string) : bool :=
  match s with
  | EmptyString => true
  | String a s' => validHeaderFieldByte a && allValidHeaderFieldBytes s'
  end.

(** The first letter and every letter after a hyphen in upper case, the
    other letters in lower case. *)
Fixpoint canonicalCase (upper : bool) (s : string) : string :=
  match s with
  | EmptyString => EmptyString
  | String a s' =>
      let n := nat_of_ascii a in
      let a' := if (upper && (97 <=? n) && (n <=? 122))%nat
                then ascii_of_nat (n - 32)
                else if (negb upper && (65 <=? n) && (n <=? 90))%nat
                     then ascii_of_nat (n + 32)
                     else a in
      String a' (canonicalCase (Ascii.eqb a' "-") s')
  end.

(** [textproto.CanonicalMIMEHeaderKey]: a name with a byte that no header
    name may have is returned as it is. *)
Definition CanonicalMIMEHeaderKey (s : string) : string :=
  if allValidHeaderFieldBytes s then canonicalCase true s else s.

(** [req.Header.Set(key, v)]: the entry under the canonical form of [key]
    becomes the single value [v]. *)
Definition Header_Set (key v : string) (req : Request) : Request :=
  {| req_method := req_method req;
     req_url := req_url req;
     req_header := <[CanonicalMIMEHeaderKey key := [v]]> (req_header req);
     req_body := req_body req |}.

Definition extractErrorID (W : World) (res : Response)
  : string * option error :=
  match Body res with
  | Fail err => ("", Some err)
  | Ok jsonBody =>
      match Unmarshal_id W jsonBody with
      | Fail err => ("", Some err)
      | Ok id => (id, None)
      end
  end.

(** The type switch at the head of [Report]. *)
Definition Report_msg (W : World) (e : value) : string :=
  match e with
  | VError e => Error e
  | _ => Sprintf W "%v" [e]
  end.

(** The notice [Report] builds; [stk] is the stack at the call of
    [Report], the direct caller's frame first. *)
Definition Report_notice (W : World) (c : Client.t) (stk : list Frame)
    (e : value) : outcome Notice :=
  buildNotice W c (frame_Report W :: stk) (Report_msg W e) 2.

(** A return of [Report] after [defer res.Body.Close()] has been
    registered: the deferred call runs, then the results go back. *)
Definition return_closing (r : string * option error) : outcome Returned :=
  Done (mkReturned (fst r) (snd r) BodyClosed).

Definition Report (W : World) (h : store) (c : Client.t) (stk : list Frame)
    (e : value) : outcome Returned :=
  notice ← Report_notice W c stk e;
  match Marshal W h notice with
  | Fail err => Done (mkReturned "" (Some err) NoResponse)
  | Ok jsonBody =>
      match NewRequest W "POST" (Client.Endpoint c) jsonBody with
      | Fail err => Done (mkReturned "" (Some err) NoResponse)
      | Ok req =>
          let req := Header_Set "accept" "application/json" req in
          let req := Header_Set "content-type" "application/json" req in
          let req := Header_Set "x-api-key" (Client.APIKey c) req in
          let '(res, err) := Do W req in
          (* defer res.Body.Close(): [res.Body] is evaluated here *)
          match res with
          | None => Panic "invalid memory address or nil pointer dereference"
          | Some res =>
              match err with
              | Some err => return_closing ("", Some err)
              | None =>
                  if negb (Z.quot (StatusCode res) 100 =? 2)%Z then
                    return_closing
                      ("", Some (Errorf W "unexpected status code %d"
                                   [VInt (StatusCode res)]))
                  else return_closing (extractErrorID W res)
              end
          end
      end
  end.

(** [Reportf] pushes its own frame and calls [Report]. *)
Definition Reportf_notice (W : World) (c : Client.t) (stk : list Frame)
    (format : string) (params : list value) : outcome Notice :=
  Report_notice W c (frame_Reportf W :: stk)
    (VString (Sprintf W format params)).

Definition Reportf (W : World) (h : store) (c : Client.t) (stk : list Frame)
    (format : string) (params : list value) : outcome Returned :=
  Report W h c (frame_Reportf W :: stk) (VString (Sprintf W format params)).

(** ** What the client relies on in [fmt] *)

(** A text without [%] is copied by [Sprintf] as it stands. *)
Fixpoint plain (s : string) : bool :=
  match s with
  | EmptyString => true
  | String a s' => negb (Ascii.eqb a "%") && plain s'
  end.

(** [%v] prints a string as it is. *)
Definition fmt_v_string (W : World) : Prop :=
  ∀ s, Sprintf W "%v" [VString s] = s.

(** [%d] after plain text prints an int in decimal. *)
Definition fmt_d_int (W : World) : Prop :=
  ∀ pre n, plain pre = true →
    Sprintf W (pre +:+ "%d") [VInt n] = pre +:+ pretty n.

(** ** What the client relies on in [regexp] *)

(** Where a scan for well-formed UTF-8 stands: between two characters, or
    inside one, with [more] bytes to come and the next one between [lo]
    and [hi]. *)
Inductive utf8_state :=
| UStart
| UInside (more : nat) (lo hi : nat)
| UBad.

Definition utf8_step (st : utf8_state) (a : ascii) : utf8_state :=
  let b := nat_of_ascii a in
  match st with
  | UBad => UBad
  | UStart =>
      if (b <? 128)%nat then UStart
      else if ((194 <=? b) && (b <=? 223))%nat then UInside 0 128 191
      else if (b =? 224)%nat then UInside 1 160 191
      else if (b =? 237)%nat then UInside 1 128 159
      else if ((225 <=? b) && (b <=? 239))%nat then UInside 1 128 191
      else if (b =? 240)%nat then UInside 2 144 191
      else if ((241 <=? b) && (b <=? 243))%nat then UInside 2 128 191
      else if (b =? 244)%nat then UInside 2 128 143
      else UBad
  | UInside more lo hi =>
      if ((lo <=? b) && (b <=? hi))%nat then
        match more with
        | O => UStart
        | S more' => UInside more' 128 191
        end
      else UBad
  end.

Fixpoint utf8_run (st : utf8_state) (s : string) : utf8_state :=
  match s with
  | EmptyString => st
  | String a s' => utf8_run (utf8_step st a) s'
  end.

(** [utf8.ValidString] *)
Definition validUTF8 (s : string) : bool :=
  match utf8_run UStart s with
  | UStart => true
  | _ => false
  end.

(** A replacement text without [$] is inserted as it stands. *)
Fixpoint noDollar (s : string) : bool :=
  match s with
  | EmptyString => true
  | String a s' => negb (Ascii.eqb a "$") && noDollar s'
  end.

(** A pattern that compiles was built from well-formed UTF-8, and on a
    well-formed text it matches its literal, byte for byte, where the text
    begins and nowhere else. *)
Definition regexp_anchored (W : World) : Prop :=
  ∀ lit re, MustCompile W lit = inl re →
    validUTF8 lit = true
    ∧ ∀ src repl, validUTF8 src = true → noDollar repl = true →
        ReplaceAllString W re src repl = replacePrefix lit src repl.

(** The package was initialised: [rootFilter] holds the pattern compiled
    from the runtime root. *)
Definition initialised (W : World) : Prop :=
  MustCompile W (GOROOT W) = inl (rootFilter W).

(** [MustCompile] panics on the client's project root. *)
Definition rootPanics (W : World) (c : Client.t) (v : value) : Prop :=
  Client.ProjectRoot c ≠ "" ∧ MustCompile W (Client.ProjectRoot c) = inr v.

(** The client has no project root, or one whose pattern compiles. *)
Definition rootCompiles (W : World) (c : Client.t) : Prop :=
  Client.ProjectRoot c = ""
  ∨ ∃ re, MustCompile W (Client.ProjectRoot c) = inl re.

(** [sub] occurs somewhere in [s]. *)
Definition contains (s sub : string) : Prop :=
  ∃ before after, s = before +:+ sub +:+ after.

(** ** A sample world

    A small stand-in for each outside package, enough to run the client on
    concrete calls: [sprintf] knows [%%] and prints the next argument in its
    default format at any other verb, [dirname] cuts a clean slash-separated
    path at its last slash, [parse_id] reads a body of the one shape
    [{"id":"..."}], [mustCompile] refuses what is not UTF-8 and the pattern
    it yields is read byte by byte. *)

Definition show_v (v : value) : string :=
  match v with
  | VNil => "<nil>"
  | VError e => Error e
  | VString s => s
  | VInt n => pretty n
  | VBool b => if b then "true" else "false"
  | VStrings l => "[" +:+ String.concat " " l +:+ "]"
  end.

Fixpoint sprintf (format : string) (a : list value) : string :=
  match format with
  | EmptyString => EmptyString
  | String ch rest =>
      if Ascii.eqb ch "%" then
        match rest with
        | EmptyString => "%!(NOVERB)"
        | String verb rest' =>
            if Ascii.eqb verb "%" then String "%" (sprintf rest' a)
            else match a with
                 | [] => "%!" +:+ String verb "(MISSING)" +:+ sprintf rest' []
                 | x :: a' => show_v x +:+ sprintf rest' a'
                 end
        end
      else String ch (sprintf rest a)
  end.

(** The text of [s] before its last slash. *)
Fixpoint dirname_go (s : string) : option string :=
  match s with
  | EmptyString => None
  | String a s' =>
      match dirname_go s' with
      | Some d => Some (String a d)
      | None => if Ascii.eqb a "/" then Some EmptyString else None
      end
  end.

Definition dirname (s : string) : string :=
  match dirname_go s with
  | None => "."
  | Some EmptyString => "/"
  | Some d => d
  end.

Definition dquote : string := String (Ascii.ascii_of_nat 34) EmptyString.

(** The rest of [s] before a trailing [p]. *)
Fixpoint stripSuffix (p s : string) : option string :=
  if String.eqb s p then Some EmptyString
  else match s with
       | EmptyString => None
       | String a s' => String a <$> stripSuffix p s'
       end.

Definition parse_id (body : string) : result string :=
  match stripPrefix ("{" +:+ dquote +:+ "id" +:+ dquote +:+ ":" +:+ dquote)
          body with
  | Some rest =>
      match stripSuffix (dquote +:+ "}") rest with
      | Some id => Ok id
      | None => Fail (mkError "unexpected end of JSON input")
      end
  | None => Fail (mkError "invalid character looking for beginning of value")
  end.

Definition mustCompile (lit : string) : Regexp + value :=
  if validUTF8 lit then inl (anchoredLiteral lit)
  else inr (VString "regexp: Compile: error parsing regexp: invalid UTF-8").

(** The sample world answers every request with [reply]. *)
Definition sampleWorld (goroot : string)
    (reply : option Response * option error) : World :=
  {| GOROOT := goroot;
     GOARCH := "amd64";
     GOOS := "linux";
     Version := "go1.4";
     Hostname := Ok "build-1";
     Dir := dirname;
     Sprintf := sprintf;
     MustCompile := mustCompile;
     ReplaceAllString := λ re, replacePrefix (literal re);
     rootFilter := anchoredLiteral goroot;
     Marshal := λ _ _, Ok "{}";
     Unmarshal_id := parse_id;
     NewRequest := λ method url body,
       Ok {| req_method := method; req_url := url;
             req_header := ∅; req_body := body |};
     Do := λ _, reply;
     LibFile := "/home/dev/src/github.com/hashrabbit/honeybadger-go/honeybadger.go" |}.

Definition created : Response :=
  {| StatusCode := 201;
     Body := Ok ("{" +:+ dquote +:+ "id" +:+ dquote +:+ ":" +:+ dquote
                  +:+ "abc123" +:+ dquote +:+ "}") |}.

Definition unprocessable : Response :=
  {| StatusCode := 422; Body := Ok "{}" |}.

Definition refused : option Response * option error :=
  (None, Some (mkError "dial tcp 127.0.0.1:1: connection refused")).

(** The stack of the example program at its call of [Reportf], and the
    same call site used for a direct [Report]. *)
Definition mainStack : list Frame :=
  [ mkFrame (Some "main.main") "/home/dev/src/app/main.go" 23;
    mkFrame (Some "runtime.main") "/usr/local/go/src/runtime/proc.go" 63;
    mkFrame (Some "runtime.goexit") "/usr/local/go/src/runtime/asm_amd64.s"
      2232 ].

(** The stack of the example program where its deferred handler calls
    [Report] on the recovered value: the panic was raised in [main]. *)
Definition recoverStack : list Frame :=
  [ mkFrame (Some "main.reportPanic") "/home/dev/src/app/main.go" 27;
    mkFrame (Some "runtime.gopanic") "/usr/local/go/src/runtime/panic.go" 387;
    mkFrame (Some "main.main") "/home/dev/src/app/main.go" 20;
    mkFrame (Some "runtime.main") "/usr/local/go/src/runtime/proc.go" 63;
    mkFrame (Some "runtime.goexit") "/usr/local/go/src/runtime/asm_amd64.s"
      2232 ].

Definition sampleClient : Client.t :=
  Client.mk "changeme" "/home/dev/src/app" (Some 1%positive) DefaultEndpoint
    DefaultNotifierName DefaultNotifierURL.

(** The backtrace entry [stacktraceFrames] makes of one frame. *)
Definition entryOf (W : World) (c : Client.t) (fr : Frame)
  : outcome BacktraceEntry :=
  file ← filterPath W c (frame_file fr);
  Done (mkEntry file (frame_line fr) (default "unknown" (frame_func fr))).

(** The entries of a run of frames, made one after the other. *)
Fixpoint entriesOf (W : World) (c : Client.t) (frames : list Frame)
  : outcome (list BacktraceEntry) :=
  match frames with
  | [] => Done []
  | fr :: frames' =>
      en ← entryOf W c fr;
      ens ← entriesOf W c frames';
      Done (en :: ens)
  end.

Definition backtraceOf (n : Notice) : list BacktraceEntry :=
  error_backtrace (notice_error n).

(** [s] begins with [p]. *)
Definition startsWith (p s : string) : Prop := ∃ rest, s = p +:+ rest.

(** What [Report] has in hand when it is about to call the HTTP client:
    the request, or the error that keeps it from sending one. *)
Definition Report_request (W : World) (h : store) (c : Client.t)
    (stk : list Frame) (e : value) : outcome (result Request) :=
  notice ← Report_notice W c stk e;
  Done
    match Marshal W h notice with
    | Fail err => Fail err
    | Ok jsonBody =>
        match NewRequest W "POST" (Client.Endpoint c) jsonBody with
        | Fail err => Fail err
        | Ok req =>
            Ok (Header_Set "x-api-key" (Client.APIKey c)
                  (Header_Set "content-type" "application/json"
                     (Header_Set "accept" "application/json" req)))
        end
    end.

(** The fields of a notice that do not depend on the report. *)
Definition constantFields (c : Client.t) (n : Notice) : Prop :=
  error_class (notice_error n) = ""
  ∧ server_environment_name (notice_server n) = "production"
  ∧ notifier_language (notice_notifier n) = "go"
  ∧ notifier_name (notice_notifier n) = Client.NotifierName c
  ∧ notifier_url (notice_notifier n) = Client.NotifierURL c.

(** The world [W] with another answer from [os.Hostname]. *)
Definition withHostname (W : World) (hn : result string) : World :=
  {| GOROOT := GOROOT W;
     GOARCH := GOARCH W;
     GOOS := GOOS W;
     Version := Version W;
     Hostname := hn;
     Dir := Dir W;
     Sprintf := Sprintf W;
     MustCompile := MustCompile W;
     ReplaceAllString := ReplaceAllString W;
     rootFilter := rootFilter W;
     Marshal := Marshal W;
     Unmarshal_id := Unmarshal_id W;
     NewRequest := NewRequest W;
     Do := Do W;
     LibFile := LibFile W |}.

(** ** The example program

    [example/main.go] and its variant with a named handler: a package-level
    client, a deferred handler that reports what it recovers, one call of
    [Reportf], then [panic("oh no!")]. *)

(** What distinguishes the two variants: the handler's name and the lines
    of the calls. *)
Record Program := {
  mainFile : string;
  handlerName : string;
  line_Report : Z;
  line_Reportf : Z;
  line_panic : Z
}.

Definition closureProgram (file : string) : Program :=
  {| mainFile := file; handlerName := "main.main.func1";
     line_Report := 14; line_Reportf := 23; line_panic := 28 |}.

Definition namedProgram (file : string) : Program :=
  {| mainFile := file; handlerName := "main.reportPanic";
     line_Report := 24; line_Reportf := 14; line_panic := 19 |}.

(** The frames the Go runtime contributes, which depend on its version. *)
Record Runtime := {
  initStack : list Frame;     (* the stack where the package variable is set *)
  mainCallers : list Frame;   (* what runs [main.main] *)
  panicFrames : list Frame;   (* between a deferred call and a [panic(v)] *)
  faultFrames : list Frame;   (* between a deferred call and a faulting frame *)
  compileFrames : list Frame  (* of [regexp], where [MustCompile] panics *)
}.

(** How the program ends: [main] returns, or a panic goes unrecovered.
    [out] is what [fmt.Printf] wrote, one entry per call. *)
Inductive exit :=
| Exit0 (out : list string)
| Crash (out : list string) (v : value).

Definition newline : string := String (Ascii.ascii_of_nat 10) EmptyString.

(** The value [recover()] yields for a fault of the runtime. *)
Definition runtimeError (reason : string) : value :=
  VError (mkError ("runtime error: " +:+ reason)).

(** The stack at the handler's call of [Report]; [stackAtPanic] is the stack
    of the panicking frame, still in place while deferred calls run. *)
Definition handlerStack (P : Program) (between stackAtPanic : list Frame)
  : list Frame :=
  mkFrame (Some (handlerName P)) (mainFile P) (line_Report P)
    :: between ++ stackAtPanic.

(** The deferred handler, run with a recovered value [rec] (never nil in
    this program). *)
Definition reportPanic (W : World) (h : store) (hb : Client.t) (P : Program)
    (between stackAtPanic : list Frame) (rec : value) (out : list string)
  : exit :=
  match Report W h hb (handlerStack P between stackAtPanic) rec with
  | Panic reason => Crash out (runtimeError reason)
  | PanicWith v => Crash out v
  | Done r =>
      match failure r with
      | Some err =>
          Crash
            (out ++ [Sprintf W ("Failed to report error %s" +:+ newline)
                       [VError err]])
            (VError err)
      | None =>
          Exit0
            (out ++ [Sprintf W ("Recovered and reported error %s" +:+ newline)
                       [VString (ident r)]])
      end
  end.

Definition mainFrame (P : Program) (ln : Z) : Frame :=
  mkFrame (Some "main.main") (mainFile P) ln.

(** [Report]'s frame at its [defer] statement. *)
Definition frame_Report_defer W := libFrame W (recv +:+ "Report") 109.

(** The frames of the package above [Report]'s caller while [filterPath]
    compiles the project pattern. *)
Definition compileStack (W : World) : list Frame :=
  [ libFrame W (recv +:+ "filterPath") 166;
    libFrame W (recv +:+ "stacktraceFrames") 182;
    frame_buildNotice W;
    frame_Report W ].

Definition exampleMain (W : World) (R : Runtime) (P : Program) (h0 : store)
  : exit :=
  let '(hb, h) := New W (initStack R) h0 "changeme" in
  let stk := mainFrame P (line_Reportf P) :: mainCallers R in
  match Reportf W h hb stk "a %s error: %v"
          [VString "formatted"; VStrings ["foo"; "bar"; "baz"]] with
  | Panic reason =>
      reportPanic W h hb P (faultFrames R)
        (frame_Report_defer W :: frame_Reportf W :: stk)
        (runtimeError reason) []
  | PanicWith v =>
      reportPanic W h hb P (panicFrames R)
        (compileFrames R ++ compileStack W ++ frame_Reportf W :: stk) v []
  | Done r =>
      let out := match failure r with
                 | Some err =>
                     [Sprintf W ("Failed to report message %s" +:+ newline)
                        [VError err]]
                 | None => []
                 end in
      reportPanic W h hb P (panicFrames R)
        (mainFrame P (line_panic P) :: mainCallers R) (VString "oh no!") out
  end.

(** A runtime with one frame under each panic, and the stack of a program
    started the usual way. *)
Definition sampleRuntime : Runtime :=
  {| initStack :=
       [ mkFrame (Some "main.init") "/home/dev/src/app/main.go" 9;
         mkFrame (Some "runtime.main") "/usr/local/go/src/runtime/proc.go" 58;
         mkFrame (Some "runtime.goexit")
           "/usr/local/go/src/runtime/asm_amd64.s" 2232 ];
     mainCallers :=
       [ mkFrame (Some "runtime.main") "/usr/local/go/src/runtime/proc.go" 63;
         mkFrame (Some "runtime.goexit")
           "/usr/local/go/src/runtime/asm_amd64.s" 2232 ];
     panicFrames :=
       [ mkFrame (Some "runtime.gopanic")
           "/usr/local/go/src/runtime/panic.go" 387 ];
     faultFrames :=
       [ mkFrame (Some "runtime.gopanic")
           "/usr/local/go/src/runtime/panic.go" 387;
         mkFrame (Some "runtime.panicmem")
           "/usr/local/go/src/runtime/panic.go" 42;
         mkFrame (Some "runtime.sigpanic")
           "/usr/local/go/src/runtime/sigpanic_unix.go" 26 ];
     compileFrames :=
       [ mkFrame (Some "regexp.MustCompile")
           "/usr/local/go/src/regexp/regexp.go" 245 ] |}.

(** The world [W] with another [json.Marshal]. *)
Definition withMarshal (W : World) (m : store → Notice → result string)
  : World :=
  {| GOROOT := GOROOT W;
     GOARCH := GOARCH W;
     GOOS := GOOS W;
     Version := Version W;
     Hostname := Hostname W;
     Dir := Dir W;
     Sprintf := Sprintf W;
     MustCompile := MustCompile W;
     ReplaceAllString := ReplaceAllString W;
     rootFilter := rootFilter W;
     Marshal := m;
     Unmarshal_id := Unmarshal_id W;
     NewRequest := NewRequest W;
     Do := Do W;
     LibFile := LibFile W |}.

(** The text [filterPath] returns where both patterns read byte by byte:
    the runtime root first, then the project root if there is one. *)
Definition filteredPath (W : World) (c : Client.t) (file : string) : string :=
  let file' := replacePrefix (GOROOT W) file "[GO_ROOT]" in
  if decide (Client.ProjectRoot c = "") then file'
  else replacePrefix (Client.ProjectRoot c) file' "[PROJECT_ROOT]".

(** [s] begins with a slash. *)
Definition absolute (s : string) : Prop := startsWith "/" s.

(** * Properties *)

(** ** Strings *)

Lemma app_String (a : ascii) (s t : string) :
  String a s +:+ t = String a (s +:+ t).
Proof. reflexivity. Qed.

Lemma app_Empty (t : string) : "" +:+ t = t.
Proof. reflexivity. Qed.

Lemma append_empty_r (s : string) : s +:+ "" = s.
Proof.
  induction s as [|a s IH]; [done |]. by rewrite app_String, IH.
Qed.

Lemma append_assoc (s1 s2 s3 : string) :
  (s1 +:+ s2) +:+ s3 = s1 +:+ (s2 +:+ s3).
Proof.
  induction s1 as [|a s1 IH]; [done |]. by rewrite !app_String, IH.
Qed.

Lemma stripPrefix_Some (p s rest : string) :
  stripPrefix p s = Some rest ↔ s = p +:+ rest.
Proof.
  revert s. induction p as [|a p IH]; intros s; simpl.
  - rewrite app_Empty. split; [by intros [= ->] | by intros ->].
  - rewrite app_String. destruct s as [|b s]; [split; discriminate |].
    destruct (Ascii.eqb_spec a b) as [->|Hab].
    + rewrite IH. split; [by intros -> | by intros [= ->]].
    + split; [discriminate | intros [= <- _]; done].
Qed.

Lemma stripPrefix_app (p rest : string) : stripPrefix p (p +:+ rest) = Some rest.
Proof. by apply stripPrefix_Some. Qed.

Lemma stripPrefix_None (p s : string) :
  stripPrefix p s = None ↔ ¬ startsWith p s.
Proof.
  split.
  - intros HN [rest Hr]. apply stripPrefix_Some in Hr. congruence.
  - intros Hns. destruct (stripPrefix p s) as [rest|] eqn:E; [|done].
    exfalso. apply Hns. exists rest. by apply stripPrefix_Some.
Qed.

Lemma replacePrefix_match (lit rest repl : string) :
  replacePrefix lit (lit +:+ rest) repl = repl +:+ rest.
Proof. unfold replacePrefix. by rewrite stripPrefix_app. Qed.

Lemma replacePrefix_miss (lit src repl : string) :
  ¬ startsWith lit src → replacePrefix lit src repl = src.
Proof.
  intros Hn. unfold replacePrefix.
  by apply stripPrefix_None in Hn as ->.
Qed.

(** ** UTF-8 *)

Lemma utf8_run_app (st : utf8_state) (a b : string) :
  utf8_run st (a +:+ b) = utf8_run (utf8_run st a) b.
Proof.
  revert st. induction a as [|ch a IH]; intros st; [done |].
  rewrite app_String. simpl. apply IH.
Qed.

(** After a well-formed text, what follows decides. *)
Lemma validUTF8_app (a b : string) :
  validUTF8 a = true → validUTF8 (a +:+ b) = validUTF8 b.
Proof.
  unfold validUTF8. intros Ha. rewrite utf8_run_app.
  by destruct (utf8_run UStart a).
Qed.

(** ** The context store *)

Lemma mapAt_insert (h : store) (l : positive) (m : gmap string value) :
  mapAt (<[l := m]> h) l = m.
Proof. unfold mapAt. by rewrite lookup_insert_eq. Qed.

Lemma mapAt_insert_ne (h : store) (l l' : positive) (m : gmap string value) :
  l ≠ l' → mapAt (<[l := m]> h) l' = mapAt h l'.
Proof. intros Hne. unfold mapAt. by rewrite lookup_insert_ne. Qed.

Lemma Get_Set_same (h : store) (l : positive) (key : string) (v : value) :
  ∃ h', Set_ h (Some l) key v = Done h' ∧ Get h' (Some l) key = v.
Proof.
  eexists. split; [reflexivity |].
  simpl. by rewrite mapAt_insert, lookup_insert_eq.
Qed.

Lemma Get_Set_other_key (h : store) (l : positive) (key key' : string)
    (v : value) :
  key ≠ key' →
  Get (<[l := <[key := v]> (mapAt h l)]> h) (Some l) key' = Get h (Some l) key'.
Proof.
  intros Hne. simpl. by rewrite mapAt_insert, lookup_insert_ne.
Qed.

Lemma Get_Del_same (h : store) (ctx : Context) (key : string) :
  Get (Del h ctx key) ctx key = VNil.
Proof.
  destruct ctx as [l|]; simpl; [|done].
  by rewrite mapAt_insert, lookup_delete_eq.
Qed.

Lemma Get_Del_absent (h : store) (l : positive) (key : string) :
  mapAt h l !! key = None →
  ∀ ctx' key', Get (Del h (Some l) key) ctx' key' = Get h ctx' key'.
Proof.
  intros Habs [l'|] key'; simpl; [|done].
  destruct (decide (l = l')) as [<-|Hne].
  - rewrite mapAt_insert. by rewrite delete_id.
  - by rewrite mapAt_insert_ne.
Qed.

Lemma Get_Set_other_context (h h' : store) (l l' : positive) (key key' : string)
    (v : value) :
  l ≠ l' → Set_ h (Some l) key v = Done h' →
  Get h' (Some l') key' = Get h (Some l') key'.
Proof.
  intros Hne [= <-]. simpl. by rewrite mapAt_insert_ne.
Qed.

Lemma Get_Del_other_context (h : store) (l l' : positive) (key key' : string) :
  l ≠ l' → Get (Del h (Some l) key) (Some l') key' = Get h (Some l') key'.
Proof. intros Hne. simpl. by rewrite mapAt_insert_ne. Qed.

Lemma makeContext_fresh (h : store) (l : positive) :
  fst (makeContext h) = Some l →
  (l ∉ dom h) ∧ (l ∈ dom (snd (makeContext h))).
Proof.
  unfold makeContext. simpl. intros [= <-]. split.
  - apply is_fresh.
  - rewrite dom_insert_L. set_solver.
Qed.

Lemma New_Context (W : World) (stk : list Frame) (h : store) (apiKey : string) :
  Client.Context (fst (New W stk h apiKey)) = fst (makeContext h)
  ∧ snd (New W stk h apiKey) = snd (makeContext h).
Proof. unfold New. by destruct (makeContext h). Qed.

(** Two clients built one after the other hold different map objects. *)
Lemma New_New_distinct (W : World) (stk1 stk2 : list Frame) (h : store)
    (k1 k2 : string) :
  let n1 := New W stk1 h k1 in
  let n2 := New W stk2 (snd n1) k2 in
  ∃ l1 l2, Client.Context (fst n1) = Some l1
           ∧ Client.Context (fst n2) = Some l2 ∧ l1 ≠ l2.
Proof.
  intros n1 n2.
  destruct (New_Context W stk1 h k1) as [Hc1 Hh1].
  destruct (New_Context W stk2 (snd n1) k2) as [Hc2 _].
  fold n1 in Hc1, Hh1. fold n2 in Hc2.
  exists (fresh (dom h)), (fresh (dom (snd n1))).
  split; [by rewrite Hc1 |]. split; [by rewrite Hc2 |].
  intros Heq.
  destruct (makeContext_fresh h (fresh (dom h)) eq_refl) as [_ Hin].
  rewrite <- Hh1 in Hin. rewrite Heq in Hin.
  by apply is_fresh in Hin.
Qed.

(** C7: on every (non-nil) client context a set followed by a get of the
    same key yields exactly the value set, whatever was stored before; after
    a delete a get of the key yields nil, the answer for an absent key, and
    deleting an absent key changes no answer of any context; and the
    contexts of two clients built by [New] are different map objects, so a
    set or delete on one leaves every get on the other as it was. *)
Theorem Context_set_get_del_independent :
  (∀ (h : store) (l : positive) (key : string) (v : value),
      ∃ h', Set_ h (Some l) key v = Done h' ∧ Get h' (Some l) key = v)
  ∧ (∀ (h : store) (ctx : Context) (key : string),
      Get (Del h ctx key) ctx key = VNil)
  ∧ (∀ (h : store) (l : positive) (key : string),
      mapAt (Del h (Some l) key) l !! key = None)
  ∧ (∀ (h : store) (l : positive) (key : string),
      mapAt h l !! key = None →
      ∀ ctx' key', Get (Del h (Some l) key) ctx' key' = Get h ctx' key')
  ∧ (∀ (W : World) (stk1 stk2 : list Frame) (h : store) (k1 k2 : string),
      let n1 := New W stk1 h k1 in
      let n2 := New W stk2 (snd n1) k2 in
      let c1 := Client.Context (fst n1) in
      let c2 := Client.Context (fst n2) in
      ∀ (h0 : store) (key key' : string) (v : value),
        (∃ h', Set_ h0 c1 key v = Done h' ∧ Get h' c2 key' = Get h0 c2 key')
        ∧ Get (Del h0 c1 key) c2 key' = Get h0 c2 key'
        ∧ (∃ h', Set_ h0 c2 key v = Done h' ∧ Get h' c1 key' = Get h0 c1 key')
        ∧ Get (Del h0 c2 key) c1 key' = Get h0 c1 key').
Proof.
  split; [exact Get_Set_same |].
  split; [exact Get_Del_same |].
  split; [intros h l key; simpl; by rewrite mapAt_insert, lookup_delete_eq |].
  split; [exact Get_Del_absent |].
  intros W stk1 stk2 h k1 k2 n1 n2 c1 c2 h0 key key' v.
  pose proof (New_New_distinct W stk1 stk2 h k1 k2) as Hnew.
  cbv zeta in Hnew. destruct Hnew as (l1 & l2 & H1 & H2 & Hne).
  subst c1 c2 n2 n1. rewrite H1, H2.
  repeat split.
  - eexists. split; [reflexivity |].
    by eapply Get_Set_other_context.
  - by apply Get_Del_other_context.
  - eexists. split; [reflexivity |].
    by eapply Get_Set_other_context.
  - by apply Get_Del_other_context.
Qed.

(** Deleting a key that was never set, on the context of a new client. *)
Lemma Context_set_get_del_independent_witness :
  mapAt ∅ 1%positive !! "user_id" = None
  ∧ Get (Del ∅ (Some 1%positive) "user_id") (Some 1%positive) "plan"
    = Get ∅ (Some 1%positive) "plan".
Proof.
  split; [reflexivity |].
  apply (proj1 (proj2 (proj2 (proj2 Context_set_get_del_independent)))).
  reflexivity.
Defined.

(** ** Project-root detection *)

Lemma detectLoop_spec (fuel : nat) (stack : list Frame) (i : nat)
    (files : list string) :
  length stack - i < fuel →
  detectLoop fuel stack i files
  = (files ++ (frame_file <$> drop i stack))%list.
Proof.
  revert i files. induction fuel as [|fuel IH]; intros i files Hfuel; [lia |].
  simpl. unfold runtime_Caller.
  destruct (stack !! i) as [fr|] eqn:Hi.
  - rewrite IH by (apply lookup_lt_Some in Hi; lia).
    rewrite (drop_S _ _ _ Hi). simpl. by rewrite <- app_assoc.
  - apply lookup_ge_None in Hi. rewrite drop_ge by lia.
    simpl. by rewrite app_nil_r.
Qed.

Lemma detectProjectRoot_spec (W : World) (stk : list Frame) :
  detectProjectRoot W stk =
  if (length stk <? 3)%nat then ""
  else Dir W (default "" (frame_file <$> stk !! (length stk - 3)%nat)).
Proof.
  unfold detectProjectRoot.
  rewrite detectLoop_spec by (simpl; lia).
  simpl. rewrite drop_0, length_fmap.
  destruct (length stk <? 3)%nat; [done |].
  by rewrite list_lookup_fmap.
Qed.

(** C9: [New] looks at the stack from its own frame outward; with fewer
    than three frames the project root is empty, otherwise it is the
    directory of the file of the third frame counted from the outermost. *)
Theorem New_ProjectRoot (W : World) (stk : list Frame) (h : store)
    (apiKey : string) :
  let frames := frame_New W :: stk in
  let root := Client.ProjectRoot (fst (New W stk h apiKey)) in
  ((length frames < 3)%nat ∧ root = "")
  ∨ ((3 ≤ length frames)%nat
     ∧ ∃ fr, reverse frames !! 2%nat = Some fr
             ∧ root = Dir W (frame_file fr)).
Proof.
  intros frames root.
  assert (Hroot : root = detectProjectRoot W frames).
  { subst root frames. unfold New. by destruct (makeContext h). }
  rewrite Hroot, detectProjectRoot_spec.
  destruct (Nat.ltb_spec (length frames) 3) as [Hlt|Hge]; [by left |].
  right. split; [done |].
  rewrite reverse_lookup by lia.
  destruct (lookup_lt_is_Some_2 frames (length frames - 3)) as [fr Hfr]; [lia |].
  exists fr. by rewrite Hfr.
Qed.

(** ** Path filtering *)

Lemma sample_regexp_anchored (goroot : string)
    (reply : option Response * option error) :
  regexp_anchored (sampleWorld goroot reply).
Proof.
  intros lit re. simpl. unfold mustCompile.
  destruct (validUTF8 lit) eqn:Hlit; [|discriminate].
  intros [= <-]. by split.
Qed.

Lemma replacePrefix_valid (lit src repl : string) :
  validUTF8 lit = true → validUTF8 src = true → validUTF8 repl = true →
  validUTF8 (replacePrefix lit src repl) = true.
Proof.
  intros Hlit Hsrc Hrepl. unfold replacePrefix.
  destruct (stripPrefix lit src) as [rest|] eqn:Hs; [|done].
  apply stripPrefix_Some in Hs as ->.
  rewrite validUTF8_app in Hsrc by done. by rewrite validUTF8_app.
Qed.

Lemma filterPath_panics (W : World) (c : Client.t) (file : string)
    (v : value) :
  rootPanics W c v → filterPath W c file = PanicWith v.
Proof.
  intros [Hne Hv]. unfold filterPath. rewrite Hv.
  by destruct (String.eqb_spec (Client.ProjectRoot c) "").
Qed.

Lemma filterPath_returns (W : World) (c : Client.t) (file : string) :
  rootCompiles W c → ∃ path, filterPath W c file = Done path.
Proof.
  intros [Hempty|[re Hre]]; unfold filterPath.
  - rewrite Hempty. by eexists.
  - rewrite Hre. destruct (negb _); by eexists.
Qed.

(** A call of [filterPath] either returns, and then the project pattern
    compiled, or panics with what [MustCompile] panics with. *)
Lemma filterPath_cases (W : World) (c : Client.t) (file : string) :
  (rootCompiles W c ∧ ∃ path, filterPath W c file = Done path)
  ∨ ∃ v, rootPanics W c v ∧ filterPath W c file = PanicWith v.
Proof.
  destruct (String.eqb_spec (Client.ProjectRoot c) "") as [Hempty|Hne].
  - left. assert (Hc : rootCompiles W c) by by left.
    split; [done |]. by apply filterPath_returns.
  - destruct (MustCompile W (Client.ProjectRoot c)) as [re|v] eqn:Hre.
    + left. assert (Hc : rootCompiles W c) by (right; by eexists).
      split; [done |]. by apply filterPath_returns.
    + right. exists v. assert (Hp : rootPanics W c v) by done.
      split; [done |]. by apply filterPath_panics.
Qed.

Lemma filterPath_filtered (W : World) (c : Client.t) (file : string) :
  regexp_anchored W → initialised W → rootCompiles W c →
  validUTF8 file = true →
  filterPath W c file = Done (filteredPath W c file)
  ∧ validUTF8 (filteredPath W c file) = true.
Proof.
  intros Hlaw Hinit Hroot Hfile.
  destruct (Hlaw _ _ Hinit) as [Hgo Hrepl].
  unfold filterPath, filteredPath. rewrite Hrepl by done.
  pose proof (replacePrefix_valid _ _ "[GO_ROOT]" Hgo Hfile eq_refl) as Hv.
  destruct (String.eqb_spec (Client.ProjectRoot c) "") as [Hempty|Hne];
    case_decide; try done.
  destruct Hroot as [Hempty|[re Hre]]; [done |].
  rewrite Hre. destruct (Hlaw _ _ Hre) as [Hpr Hrepl'].
  rewrite Hrepl' by done. split; [done |].
  by apply replacePrefix_valid.
Qed.

(** A project kept under the runtime's own tree: the path begins with the
    project root, yet it is the runtime root that gets replaced. *)
Lemma filterPath_project_under_goroot :
  let W := sampleWorld "/usr/local/go" refused in
  let c := Client.mk "changeme" "/usr/local/go/src/app" None DefaultEndpoint
             DefaultNotifierName DefaultNotifierURL in
  let file := "/usr/local/go/src/app/main.go" in
  Client.ProjectRoot c ≠ ""
  ∧ file = Client.ProjectRoot c +:+ "/main.go"
  ∧ filterPath W c file ≠ Done ("[PROJECT_ROOT]" +:+ "/main.go")
  ∧ filterPath W c file = Done "[GO_ROOT]/src/app/main.go".
Proof. repeat split; discriminate. Qed.

(** C3 (amended): where the paths are well-formed UTF-8 and the pattern of
    the project root compiles, both replacements are anchored where the
    path begins, and the runtime root is tried first.  A path beginning
    with the runtime root has that prefix replaced by [GO_ROOT], when the
    project root is empty or does not begin the rewritten path; a path
    beginning with a non-empty project root and not with the runtime root
    has exactly that prefix replaced by [PROJECT_ROOT]; a path beginning
    with neither is returned as it is, wherever else a root may occur in
    it. *)
Theorem filterPath_prefix (W : World) (c : Client.t) (file : string) :
  regexp_anchored W → initialised W → rootCompiles W c →
  validUTF8 file = true →
  (∀ rest, file = GOROOT W +:+ rest →
     Client.ProjectRoot c = ""
     ∨ ¬ startsWith (Client.ProjectRoot c) ("[GO_ROOT]" +:+ rest) →
     filterPath W c file = Done ("[GO_ROOT]" +:+ rest))
  ∧ (∀ rest, Client.ProjectRoot c ≠ "" →
     file = Client.ProjectRoot c +:+ rest →
     ¬ startsWith (GOROOT W) file →
     filterPath W c file = Done ("[PROJECT_ROOT]" +:+ rest))
  ∧ (¬ startsWith (GOROOT W) file →
     Client.ProjectRoot c = "" ∨ ¬ startsWith (Client.ProjectRoot c) file →
     filterPath W c file = Done file).
Proof.
  intros Hlaw Hinit Hroot Hfile.
  destruct (filterPath_filtered W c file Hlaw Hinit Hroot Hfile) as [-> _].
  unfold filteredPath. cbv zeta. repeat split.
  - intros rest -> Hproj. rewrite replacePrefix_match.
    case_decide; [done |].
    destruct Hproj as [Hempty|Hmiss]; [done |].
    by rewrite replacePrefix_miss.
  - intros rest Hne Hrest Hmiss.
    rewrite (replacePrefix_miss _ _ _ Hmiss).
    case_decide; [done |]. by rewrite Hrest, replacePrefix_match.
  - intros Hmiss Hproj. rewrite (replacePrefix_miss _ _ _ Hmiss).
    case_decide; [done |].
    destruct Hproj as [Hempty|Hmiss']; [done |].
    by rewrite replacePrefix_miss.
Qed.

(** The three cases on concrete paths; in the last one the project root
    occurs inside the path but does not begin it. *)
Lemma filterPath_prefix_witness :
  let W := sampleWorld "/usr/local/go" refused in
  let c := Client.mk "changeme" "/home/proj/x" None DefaultEndpoint
             DefaultNotifierName DefaultNotifierURL in
  filterPath W c "/usr/local/go/src/runtime/proc.go"
  = Done "[GO_ROOT]/src/runtime/proc.go"
  ∧ filterPath W c "/home/proj/x/y.go" = Done "[PROJECT_ROOT]/y.go"
  ∧ filterPath W c "/mnt/backup/home/proj/x/y.go"
    = Done "/mnt/backup/home/proj/x/y.go".
Proof.
  intros W c.
  assert (Hlaw : regexp_anchored W) by apply sample_regexp_anchored.
  assert (Hinit : initialised W) by reflexivity.
  assert (Hroot : rootCompiles W c) by (right; by eexists).
  split; [| split].
  - apply (proj1 (filterPath_prefix W c "/usr/local/go/src/runtime/proc.go"
                    Hlaw Hinit Hroot eq_refl) "/src/runtime/proc.go");
      [reflexivity |].
    right. apply stripPrefix_None. reflexivity.
  - apply (proj1 (proj2 (filterPath_prefix W c "/home/proj/x/y.go"
                           Hlaw Hinit Hroot eq_refl)) "/y.go");
      [discriminate | reflexivity |].
    apply stripPrefix_None. reflexivity.
  - apply (proj2 (proj2 (filterPath_prefix W c "/mnt/backup/home/proj/x/y.go"
                           Hlaw Hinit Hroot eq_refl))).
    + apply stripPrefix_None. reflexivity.
    + right. apply stripPrefix_None. reflexivity.
Defined.

(** ** The backtrace *)

Lemma bind_Done {A : Type} (m : outcome A) : (x ← m; Done x) = m.
Proof. by destruct m. Qed.

Lemma stacktraceLoop_spec (W : World) (c : Client.t) (fuel : nat)
    (stack : list Frame) (i : nat) (frames : list BacktraceEntry) :
  length stack - i < fuel →
  stacktraceLoop W c fuel stack i frames
  = (ens ← entriesOf W c (drop i stack); Done (frames ++ ens)%list).
Proof.
  revert i frames.
  induction fuel as [|fuel IH]; intros i frames Hfuel; [lia |].
  simpl. unfold runtime_Caller.
  destruct (stack !! i) as [fr|] eqn:Hi.
  - rewrite (drop_S _ _ _ Hi). simpl. unfold entryOf.
    destruct (filterPath W c (frame_file fr)) as [file| |]; simpl; try done.
    rewrite IH by (apply lookup_lt_Some in Hi; lia).
    destruct (entriesOf W c (drop (S i) stack)) as [ens| |]; simpl; try done.
    rewrite <- app_assoc. simpl. by destruct (frame_func fr).
  - apply lookup_ge_None in Hi. rewrite drop_ge by lia.
    simpl. by rewrite app_nil_r.
Qed.

(** Seen from the caller of [stacktraceFrames], the frames captured are
    those from index [skip - 1] of the stack at the call. *)
Lemma stacktraceFrames_spec (W : World) (c : Client.t) (stk : list Frame)
    (skip : nat) :
  stacktraceFrames W c stk (S skip) = entriesOf W c (drop skip stk).
Proof.
  unfold stacktraceFrames. rewrite stacktraceLoop_spec by (simpl; lia).
  simpl. apply bind_Done.
Qed.

Lemma buildNotice_backtrace (W : World) (c : Client.t) (stk : list Frame)
    (message : string) (skip : nat) :
  backtraceOf <$> buildNotice W c stk message skip
  = entriesOf W c (drop (1 + skip) stk).
Proof.
  unfold buildNotice. simpl. rewrite stacktraceFrames_spec. simpl.
  by destruct (entriesOf W c (drop (S skip) stk)).
Qed.

(** A notice that is built has the backtrace [stacktraceFrames] returned
    and the other fields as [buildNotice] writes them. *)
Lemma buildNotice_Done (W : World) (c : Client.t) (stk : list Frame)
    (message : string) (skip : nat) (n : Notice) :
  buildNotice W c stk message skip = Done n →
  entriesOf W c (drop (1 + skip) stk) = Done (backtraceOf n)
  ∧ notice_notifier n
    = {| notifier_name := Client.NotifierName c;
         notifier_url := Client.NotifierURL c;
         notifier_language := "go" |}
  ∧ error_class (notice_error n) = ""
  ∧ error_message (notice_error n) = message
  ∧ notice_request n
    = {| request_cgi_data :=
           {| cgi_GOARCH := GOARCH W; cgi_GOOS := GOOS W;
              cgi_GOVER := Version W |};
         request_context := Client.Context c |}
  ∧ notice_server n
    = {| server_environment_name := "production";
         server_hostname := match Hostname W with
                            | Ok name => name
                            | Fail _ => ""
                            end;
         server_project_root := Client.ProjectRoot c |}.
Proof.
  intros Hn. pose proof (buildNotice_backtrace W c stk message skip) as Hbt.
  rewrite Hn in Hbt. simpl in Hbt. split; [done |].
  unfold buildNotice in Hn.
  destruct (stacktraceFrames W c _ _) as [bt| |]; simpl in Hn; try done.
  by injection Hn as <-.
Qed.

Lemma entriesOf_returns (W : World) (c : Client.t) (frames : list Frame) :
  rootCompiles W c → ∃ ens, entriesOf W c frames = Done ens.
Proof.
  intros Hroot. induction frames as [|fr frames [ens IH]]; [by eexists |].
  simpl. unfold entryOf.
  destruct (filterPath_returns W c (frame_file fr) Hroot) as [path ->].
  simpl. rewrite IH. by eexists.
Qed.

Lemma entriesOf_panics (W : World) (c : Client.t) (fr : Frame)
    (frames : list Frame) (v : value) :
  rootPanics W c v → entriesOf W c (fr :: frames) = PanicWith v.
Proof.
  intros Hp. simpl. unfold entryOf. by rewrite (filterPath_panics _ _ _ _ Hp).
Qed.

Lemma entriesOf_app (W : World) (c : Client.t) (l1 l2 : list Frame) :
  entriesOf W c (l1 ++ l2)
  = (e1 ← entriesOf W c l1; e2 ← entriesOf W c l2; Done (e1 ++ e2)%list).
Proof.
  induction l1 as [|fr l1 IH]; simpl.
  - by destruct (entriesOf W c l2).
  - destruct (entryOf W c fr) as [en| |]; simpl; try done.
    rewrite IH. destruct (entriesOf W c l1) as [e1| |]; simpl; try done.
    by destruct (entriesOf W c l2).
Qed.

Lemma entriesOf_length (W : World) (c : Client.t) (frames : list Frame)
    (ens : list BacktraceEntry) :
  entriesOf W c frames = Done ens → length ens = length frames.
Proof.
  revert ens. induction frames as [|fr frames IH]; intros ens; simpl.
  - by intros [= <-].
  - destruct (entryOf W c fr) as [en| |]; simpl; try done.
    destruct (entriesOf W c frames) as [ens'| |]; simpl; try done.
    intros [= <-]. simpl. f_equal. by apply IH.
Qed.

Lemma entriesOf_lookup (W : World) (c : Client.t) (frames : list Frame)
    (ens : list BacktraceEntry) (i : nat) (en : BacktraceEntry) :
  entriesOf W c frames = Done ens → ens !! i = Some en →
  ∃ fr, frames !! i = Some fr ∧ entryOf W c fr = Done en.
Proof.
  revert ens i. induction frames as [|fr frames IH]; intros ens i; simpl.
  - by intros [= <-].
  - destruct (entryOf W c fr) as [en0| |] eqn:He; simpl; try done.
    destruct (entriesOf W c frames) as [ens'| |]; simpl; try done.
    intros [= <-]. destruct i as [|i]; simpl.
    + intros [= <-]. by exists fr.
    + intros Hi. by apply (IH ens').
Qed.

(** From [main], the first entry [Report] records is the outermost frame
    and the first entry [Reportf] records is the one before it; neither is
    the call site in [main]. *)
Lemma backtrace_from_main :
  let W := sampleWorld "/usr/local/go" refused in
  let c := sampleClient in
  let site := mkEntry "[PROJECT_ROOT]/main.go" 23 "main.main" in
  let first (n : Notice) := head (backtraceOf n) in
  let viaReport :=
    first <$> Report_notice W c mainStack (VString "oh no!") in
  let viaReportf :=
    first <$> Reportf_notice W c mainStack "oh %s!" [VString "no"] in
  head mainStack = Some (mkFrame (Some "main.main") "/home/dev/src/app/main.go" 23)
  ∧ entryOf W c (mkFrame (Some "main.main") "/home/dev/src/app/main.go" 23)
    = Done site
  ∧ viaReport = Done (Some (mkEntry "[GO_ROOT]/src/runtime/asm_amd64.s" 2232
                              "runtime.goexit"))
  ∧ viaReportf = Done (Some (mkEntry "[GO_ROOT]/src/runtime/proc.go" 63
                               "runtime.main"))
  ∧ viaReport ≠ Done (Some site)
  ∧ viaReportf ≠ Done (Some site)
  ∧ viaReport ≠ viaReportf.
Proof. vm_compute. repeat split; discriminate. Qed.

(** C2 (amended): frame capture skips the same five innermost frames for
    both entry points, counted from [stacktraceFrames] itself.  Called
    directly, [Report] records the frames of its call stack from the one
    two levels out from its caller's call site, in order; through
    [Reportf], which adds one frame of its own, the record starts one level
    out from the caller's call site.  With no frame that far out the
    backtrace is empty. *)
Theorem backtrace_skips_five (W : World) (c : Client.t) (stk : list Frame)
    (e : value) (format : string) (params : list value) :
  backtraceOf <$> Report_notice W c stk e = entriesOf W c (drop 2 stk)
  ∧ backtraceOf <$> Reportf_notice W c stk format params
    = entriesOf W c (drop 1 stk).
Proof.
  unfold Reportf_notice, Report_notice.
  rewrite !buildNotice_backtrace. done.
Qed.

(** ** The notice *)

(** C8: every notice, whichever entry point builds it, has an empty error
    class, the environment name "production", the notifier language "go",
    and the client's notifier name and url; a client fresh from [New]
    carries the default name and url. *)
Theorem notice_constant_fields (W : World) (c : Client.t) (stk : list Frame)
    (e : value) (format : string) (params : list value) (message : string)
    (skip : nat) (h : store) (apiKey : string) :
  (∀ n, buildNotice W c stk message skip = Done n → constantFields c n)
  ∧ (∀ n, Report_notice W c stk e = Done n → constantFields c n)
  ∧ (∀ n, Reportf_notice W c stk format params = Done n →
       constantFields c n)
  ∧ Client.NotifierName (fst (New W stk h apiKey)) = DefaultNotifierName
  ∧ Client.NotifierURL (fst (New W stk h apiKey)) = DefaultNotifierURL.
Proof.
  assert (Hall : ∀ stk message skip n,
            buildNotice W c stk message skip = Done n → constantFields c n).
  { intros stk0 message0 skip0 n Hn.
    destruct (buildNotice_Done _ _ _ _ _ _ Hn)
      as (_ & Hnot & Hclass & _ & _ & Hserver).
    unfold constantFields. by rewrite Hnot, Hclass, Hserver. }
  split; [apply Hall |]. split; [apply Hall |]. split; [apply Hall |].
  unfold New. by destruct (makeContext h).
Qed.

Lemma notice_constant_fields_witness :
  ∃ n, Report_notice (sampleWorld "/usr/local/go" refused) sampleClient
         mainStack (VString "oh no!") = Done n
       ∧ constantFields sampleClient n.
Proof.
  eexists. split; [reflexivity |].
  apply (proj1 (proj2 (notice_constant_fields
           (sampleWorld "/usr/local/go" refused) sampleClient mainStack
           (VString "oh no!") "" [] "" 0 ∅ ""))).
  reflexivity.
Defined.

(** C6: the message of the notice is the value's [Error()] text when the
    value is an error, and its [%v] rendering otherwise. *)
Theorem Report_message (W : World) (c : Client.t) (stk : list Frame)
    (e : value) (n : Notice) :
  Report_notice W c stk e = Done n →
  error_message (notice_error n)
  = match e with
    | VError err => Error err
    | _ => Sprintf W "%v" [e]
    end.
Proof.
  intros Hn. destruct (buildNotice_Done _ _ _ _ _ _ Hn) as (_ & _ & _ & -> & _).
  reflexivity.
Qed.

Lemma Report_message_witness :
  ∃ n, Report_notice (sampleWorld "/usr/local/go" refused) sampleClient
         mainStack (VError (mkError "disk full")) = Done n
       ∧ error_message (notice_error n) = "disk full".
Proof.
  eexists. split; [reflexivity |].
  apply (Report_message (sampleWorld "/usr/local/go" refused) sampleClient
           mainStack (VError (mkError "disk full"))).
  reflexivity.
Defined.

(** ** [Reportf] beside [Report] *)

Lemma buildNotice_returns (W : World) (c : Client.t) (stk : list Frame)
    (message : string) (skip : nat) (bt : list BacktraceEntry) :
  entriesOf W c (drop (1 + skip) stk) = Done bt →
  ∃ n, buildNotice W c stk message skip = Done n ∧ backtraceOf n = bt.
Proof.
  intros Hbt. unfold buildNotice. simpl.
  rewrite stacktraceFrames_spec. simpl. simpl in Hbt. rewrite Hbt.
  by eexists.
Qed.

(** The two notices of one call site: the first backtrace is the second
    with the entry of the frame next to the caller's in front. *)
Lemma Reportf_notice_Report_notice (W : World) (c : Client.t)
    (stk : list Frame) (e : value) (format : string) (params : list value)
    (nf : Notice) :
  Reportf_notice W c stk format params = Done nf →
  ∃ nr front,
    Report_notice W c stk e = Done nr
    ∧ entriesOf W c (take 1 (drop 1 stk)) = Done front
    ∧ backtraceOf nf = (front ++ backtraceOf nr)%list.
Proof.
  intros Hnf.
  destruct (buildNotice_Done _ _ _ _ _ _ Hnf) as (Hbt & _). simpl in Hbt.
  rewrite <- (take_drop 1 (drop 1 stk)), drop_drop, entriesOf_app in Hbt.
  destruct (entriesOf W c (take 1 (drop 1 stk))) as [front| |];
    simpl in Hbt; try done.
  destruct (entriesOf W c (drop 2 stk)) as [rest| |] eqn:Hrest;
    simpl in Hbt; try done.
  injection Hbt as Hbt.
  destruct (buildNotice_returns W c (frame_Report W :: stk) (Report_msg W e)
              2 rest Hrest) as (nr & Hnr & Hbtr).
  exists nr, front. by rewrite Hbtr.
Qed.

(** From [main], the notice built through [Reportf] is not the notice
    built by [Report] on the formatted string: it records one frame
    more. *)
Lemma Reportf_notice_differs :
  let W := sampleWorld "/usr/local/go" refused in
  let format := "a %s error: %v" in
  let params := [VString "formatted"; VStrings ["foo"; "bar"; "baz"]] in
  let size (n : Notice) := length (backtraceOf n) in
  Sprintf W format params = "a formatted error: [foo bar baz]"
  ∧ Reportf_notice W sampleClient mainStack format params
    ≠ Report_notice W sampleClient mainStack
        (VString (Sprintf W format params))
  ∧ size <$> Reportf_notice W sampleClient mainStack format params = Done 2%nat
  ∧ size <$> Report_notice W sampleClient mainStack
               (VString (Sprintf W format params)) = Done 1%nat.
Proof. vm_compute. repeat split; discriminate. Qed.

(** C5 (amended): [Reportf] reports the formatted string, and beside a call
    of [Report] with that string from the same call site its notice has
    the same message, the formatted string itself, the same error class and
    the same notifier, request and server blocks; what differs is the
    backtrace, which has one more entry in front, that of the frame next to
    the caller's. *)
Theorem Reportf_message (W : World) (Hv : fmt_v_string W) (c : Client.t)
    (stk : list Frame) (format : string) (params : list value)
    (nf : Notice) :
  let formatted := Sprintf W format params in
  Reportf_notice W c stk format params = Done nf →
  ∃ nr front,
    Report_notice W c stk (VString formatted) = Done nr
    ∧ entriesOf W c (take 1 (drop 1 stk)) = Done front
    ∧ backtraceOf nf = (front ++ backtraceOf nr)%list
    ∧ error_message (notice_error nf) = formatted
    ∧ error_message (notice_error nr) = formatted
    ∧ error_class (notice_error nf) = error_class (notice_error nr)
    ∧ notice_notifier nf = notice_notifier nr
    ∧ notice_request nf = notice_request nr
    ∧ notice_server nf = notice_server nr.
Proof.
  intros formatted Hnf.
  destruct (Reportf_notice_Report_notice W c stk (VString formatted) format
              params nf Hnf) as (nr & front & Hnr & Hfront & Hbt).
  exists nr, front. split; [done |]. split; [done |]. split; [done |].
  destruct (buildNotice_Done _ _ _ _ _ _ Hnf)
    as (_ & Hnot & Hclass & Hmsg & Hreq & Hserver).
  destruct (buildNotice_Done _ _ _ _ _ _ Hnr)
    as (_ & Hnot' & Hclass' & Hmsg' & Hreq' & Hserver').
  rewrite Hnot, Hnot', Hclass, Hclass', Hmsg, Hmsg', Hreq, Hreq', Hserver,
    Hserver'.
  simpl. fold formatted. by rewrite Hv.
Qed.

Lemma sprintf_v_string (goroot : string)
    (reply : option Response * option error) :
  fmt_v_string (sampleWorld goroot reply).
Proof. intros s. simpl. apply append_empty_r. Qed.

(** The call of the example program. *)
Lemma Reportf_message_witness :
  ∃ nf nr,
    Reportf_notice (sampleWorld "/usr/local/go" refused) sampleClient
      mainStack "a %s error: %v"
      [VString "formatted"; VStrings ["foo"; "bar"; "baz"]] = Done nf
    ∧ Report_notice (sampleWorld "/usr/local/go" refused) sampleClient
        mainStack (VString "a formatted error: [foo bar baz]") = Done nr
    ∧ error_message (notice_error nf) = error_message (notice_error nr).
Proof.
  eexists.
  destruct (Reportf_message (sampleWorld "/usr/local/go" refused)
              (sprintf_v_string _ _) sampleClient mainStack "a %s error: %v"
              [VString "formatted"; VStrings ["foo"; "bar"; "baz"]] _ eq_refl)
    as (nr & front & Hnr & _ & _ & Hmf & Hmr & _).
  exists nr. split; [reflexivity |]. split; [exact Hnr |].
  by rewrite Hmf, Hmr.
Defined.

(** ** Delivery *)

Lemma Report_unfold (W : World) (h : store) (c : Client.t) (stk : list Frame)
    (e : value) :
  Report W h c stk e =
  (r ← Report_request W h c stk e;
   match r with
   | Fail err => Done (mkReturned "" (Some err) NoResponse)
   | Ok req =>
       match Do W req with
       | (None, _) =>
           Panic "invalid memory address or nil pointer dereference"
       | (Some res, Some err) => return_closing ("", Some err)
       | (Some res, None) =>
           if negb (Z.quot (StatusCode res) 100 =? 2)%Z then
             return_closing
               ("", Some (Errorf W "unexpected status code %d"
                            [VInt (StatusCode res)]))
           else return_closing (extractErrorID W res)
       end
   end).
Proof.
  unfold Report, Report_request.
  destruct (Report_notice W c stk e) as [notice| |]; simpl; try done.
  destruct (Marshal W h _) as [jsonBody|err]; [|done].
  destruct (NewRequest W _ _ _) as [req|err]; [|done].
  cbv zeta. destruct (Do W _) as [[res|] [err|]]; done.
Qed.

(** Go's [/] on ints truncates toward zero. *)
Lemma status_2xx (n : Z) : (Z.quot n 100 =? 2)%Z = true ↔ (200 ≤ n ≤ 299)%Z.
Proof.
  rewrite Z.eqb_eq. split.
  - intros Hq.
    assert (Hn : (0 ≤ n)%Z).
    { destruct (Z.le_gt_cases 0 n) as [|Hneg]; [done |].
      pose proof (Z.quot_opp_l (- n) 100 ltac:(lia)) as Ho.
      rewrite Z.opp_involutive in Ho.
      pose proof (Z.quot_pos (- n) 100 ltac:(lia) ltac:(lia)). lia. }
    rewrite Z.quot_div_nonneg in Hq by lia.
    pose proof (Z.div_mod n 100 ltac:(lia)).
    pose proof (Z.mod_pos_bound n 100 ltac:(lia)). lia.
  - intros Hn. rewrite Z.quot_div_nonneg by lia.
    symmetry. apply (Z.div_unique n 100 2 (n - 200)); lia.
Qed.

Lemma extractErrorID_failure (W : World) (res : Response) :
  snd (extractErrorID W res) ≠ None → fst (extractErrorID W res) = "".
Proof.
  unfold extractErrorID.
  destruct (Body res) as [jsonBody|err]; [|done].
  destruct (Unmarshal_id W jsonBody); simpl; done.
Qed.

(** Whenever [Report] returns an error, the identifier is empty. *)
Lemma Report_failure_ident (W : World) (h : store) (c : Client.t)
    (stk : list Frame) (e : value) (r : Returned) :
  Report W h c stk e = Done r → failure r ≠ None → ident r = "".
Proof.
  rewrite Report_unfold.
  destruct (Report_request W h c stk e) as [[req|err]| |]; simpl;
    try discriminate; [|by intros [= <-]].
  destruct (Do W req) as [[res|] [err|]]; try discriminate.
  - by intros [= <-].
  - destruct (negb _); intros [= <-]; [done |].
    simpl. apply extractErrorID_failure.
Qed.

(** [Report] never returns with a response body left open. *)
Lemma Report_body_not_open (W : World) (h : store) (c : Client.t)
    (stk : list Frame) (e : value) (r : Returned) :
  Report W h c stk e = Done r → body r ≠ BodyOpen.
Proof.
  rewrite Report_unfold.
  destruct (Report_request W h c stk e) as [[req|err]| |]; simpl;
    try discriminate; [|by intros [= <-]].
  destruct (Do W req) as [[res|] [err|]]; try discriminate.
  - by intros [= <-].
  - destruct (negb _); by intros [= <-].
Qed.

(** The notice of [Report_notice] is the one [Report] serializes: when
    that fails, the failure is what [Report] returns. *)
Lemma Report_marshal_failure (W : World) (h : store) (c : Client.t)
    (stk : list Frame) (e : value) (n : Notice) (err : error) :
  Report_notice W c stk e = Done n → Marshal W h n = Fail err →
  Report W h c stk e = Done (mkReturned "" (Some err) NoResponse).
Proof. intros Hn HM. unfold Report. rewrite Hn. simpl. by rewrite HM. Qed.

(** With a response in hand, [Report] returns and the body is closed. *)
Lemma Report_closes_body (W : World) (h : store) (c : Client.t)
    (stk : list Frame) (e : value) (req : Request) (res : Response) :
  Report_request W h c stk e = Done (Ok req) → fst (Do W req) = Some res →
  ∃ r, Report W h c stk e = Done r ∧ body r = BodyClosed.
Proof.
  intros Hreq Hres. rewrite Report_unfold, Hreq. simpl.
  destruct (Do W req) as [[res'|] [err|]]; try discriminate.
  - by eexists.
  - destruct (negb _); by eexists.
Qed.

(** With the request sent and no response to show for it, the deferred
    close is never registered: evaluating [res.Body] panics. *)
Lemma Report_nil_response (W : World) (h : store) (c : Client.t)
    (stk : list Frame) (e : value) (req : Request) :
  Report_request W h c stk e = Done (Ok req) → fst (Do W req) = None →
  Report W h c stk e
  = Panic "invalid memory address or nil pointer dereference".
Proof.
  intros Hreq Hres. rewrite Report_unfold, Hreq. simpl.
  destruct (Do W req) as [[res|] err]; [discriminate | done].
Qed.

(** C4: once a response has arrived, a status from 200 to 299 lets the
    identifier be read from the body, any other status makes [Report] fail
    with an error whose text contains the status code, and whenever
    [Report] returns an error the identifier is empty. *)
Theorem Report_status (W : World) (Hd : fmt_d_int W) (h : store)
    (c : Client.t) (stk : list Frame) (e : value) (req : Request)
    (res : Response) :
  Report_request W h c stk e = Done (Ok req) →
  Do W req = (Some res, None) →
  ((200 ≤ StatusCode res ≤ 299)%Z →
     Report W h c stk e = return_closing (extractErrorID W res)
     ∧ ∀ jsonBody id, Body res = Ok jsonBody → Unmarshal_id W jsonBody = Ok id →
         Report W h c stk e = Done (mkReturned id None BodyClosed))
  ∧ (¬ (200 ≤ StatusCode res ≤ 299)%Z →
     ∃ err, Report W h c stk e = Done (mkReturned "" (Some err) BodyClosed)
            ∧ contains (Error err) (pretty (StatusCode res)))
  ∧ (∀ r, Report W h c stk e = Done r → failure r ≠ None → ident r = "").
Proof.
  intros Hreq Hdo. split; [| split].
  - intros H2xx. apply status_2xx in H2xx.
    rewrite Report_unfold, Hreq. simpl. rewrite Hdo, H2xx. simpl.
    split; [done |].
    intros jsonBody id Hbody Hid. unfold extractErrorID.
    by rewrite Hbody, Hid.
  - intros Hnot. rewrite Report_unfold, Hreq. simpl. rewrite Hdo.
    destruct (Z.quot (StatusCode res) 100 =? 2)%Z eqn:Hq.
    { by apply status_2xx in Hq. }
    simpl. eexists. split; [reflexivity |].
    unfold Errorf. simpl.
    pose proof (Hd "unexpected status code " (StatusCode res) eq_refl)
      as Hfmt.
    change ("unexpected status code " +:+ "%d")
      with "unexpected status code %d" in Hfmt.
    rewrite Hfmt.
    exists "unexpected status code ", "". by rewrite append_empty_r.
  - apply Report_failure_ident.
Qed.

Lemma sprintf_plain (pre rest : string) (a : list value) :
  plain pre = true → sprintf (pre +:+ rest) a = pre +:+ sprintf rest a.
Proof.
  induction pre as [|ch pre IH]; [done |].
  simpl. intros [Hch Hpre]%andb_prop.
  rewrite !app_String. simpl.
  destruct (Ascii.eqb ch "%"); [discriminate |].
  by rewrite IH.
Qed.

Lemma sprintf_d_int (goroot : string)
    (reply : option Response * option error) :
  fmt_d_int (sampleWorld goroot reply).
Proof.
  intros pre n Hpre. simpl. rewrite sprintf_plain by done.
  simpl. by rewrite append_empty_r.
Qed.

(** A reply with status 422. *)
Lemma Report_status_witness :
  ∃ err,
    Report (sampleWorld "/usr/local/go" (Some unprocessable, None)) ∅
      sampleClient mainStack (VString "oh no!")
    = Done (mkReturned "" (Some err) BodyClosed)
    ∧ contains (Error err) "422".
Proof.
  refine (proj1 (proj2
    (Report_status (sampleWorld "/usr/local/go" (Some unprocessable, None))
       (sprintf_d_int _ _) ∅ sampleClient mainStack (VString "oh no!")
       _ unprocessable eq_refl eq_refl)) _).
  vm_compute. intros [_ H]. by apply H.
Defined.

(** C1: with the connection refused there is no response; [Report] then
    panics instead of returning the transport error. *)
Theorem Report_connection_refused :
  Report (sampleWorld "/usr/local/go" refused) ∅ sampleClient mainStack
    (VString "oh no!")
  = Panic "invalid memory address or nil pointer dereference".
Proof. vm_compute. reflexivity. Qed.

Example sprintf_example :
  sprintf "a %s error: %v" [VString "formatted"; VStrings ["foo"; "bar"; "baz"]]
  = "a formatted error: [foo bar baz]".
Proof. reflexivity. Qed.

Example Report_created :
  Report (sampleWorld "/usr/local/go" (Some created, None)) ∅ sampleClient
    mainStack (VString "oh no!")
  = Done (mkReturned "abc123" None BodyClosed).
Proof. vm_compute. reflexivity. Qed.

Example New_example :
  Client.ProjectRoot
    (fst (New (sampleWorld "/usr/local/go" refused) mainStack ∅ "k"))
  = "/home/dev/src/app".
Proof. vm_compute. reflexivity. Qed.

(** From the deferred handler of a [main] that called [panic], with one
    frame of the runtime in between, the first entry is the line in [main]
    where the panic was raised. *)
Example backtrace_from_recover :
  (λ n, head (backtraceOf n))
    <$> Report_notice (sampleWorld "/usr/local/go" refused) sampleClient
          recoverStack (VString "oh no!")
  = Done (Some (mkEntry "[PROJECT_ROOT]/main.go" 20 "main.main")).
Proof. vm_compute. reflexivity. Qed.

Example Report_msg_examples :
  let W := sampleWorld "/usr/local/go" refused in
  Report_msg W (VError (mkError "disk full")) = "disk full"
  ∧ Report_msg W (VString "oh no!") = "oh no!"
  ∧ Report_msg W VNil = "<nil>"
  ∧ Report_msg W (VInt 42) = "42".
Proof. vm_compute. repeat split. Qed.

Example Report_malformed_body :
  Report (sampleWorld "/usr/local/go"
            (Some {| StatusCode := 200; Body := Ok "<html>" |}, None))
    ∅ sampleClient mainStack (VString "oh no!")
  = Done (mkReturned ""
            (Some (mkError "invalid character looking for beginning of value"))
            BodyClosed).
Proof. vm_compute. reflexivity. Qed.

(** A project root that is not UTF-8: the pattern does not compile and the
    report panics while it builds the backtrace. *)
Example Report_root_not_UTF8 :
  let root := "/home/" +:+ String (Ascii.ascii_of_nat 255) EmptyString in
  let c := Client.mk "changeme" root (Some 1%positive) DefaultEndpoint
             DefaultNotifierName DefaultNotifierURL in
  validUTF8 root = false
  ∧ Report (sampleWorld "/usr/local/go" (Some created, None)) ∅ c mainStack
      (VString "oh no!")
    = PanicWith
        (VString "regexp: Compile: error parsing regexp: invalid UTF-8").
Proof. vm_compute. by split. Qed.

Example validUTF8_examples :
  validUTF8 "/home/dev/src/app" = true
  ∧ validUTF8 (String (Ascii.ascii_of_nat 195)
                 (String (Ascii.ascii_of_nat 169) EmptyString)) = true
  ∧ validUTF8 (String (Ascii.ascii_of_nat 195) EmptyString) = false
  ∧ validUTF8 (String (Ascii.ascii_of_nat 192)
                 (String (Ascii.ascii_of_nat 128) EmptyString)) = false
  ∧ validUTF8 (String (Ascii.ascii_of_nat 237)
                 (String (Ascii.ascii_of_nat 160)
                    (String (Ascii.ascii_of_nat 128) EmptyString))) = false.
Proof. vm_compute. repeat split. Qed.

Example CanonicalMIMEHeaderKey_examples :
  CanonicalMIMEHeaderKey "x-api-key" = "X-Api-Key"
  ∧ CanonicalMIMEHeaderKey "accept" = "Accept"
  ∧ CanonicalMIMEHeaderKey "content-type" = "Content-Type"
  ∧ CanonicalMIMEHeaderKey "CONTENT-TYPE" = "Content-Type"
  ∧ CanonicalMIMEHeaderKey "x api key" = "x api key".
Proof. vm_compute. repeat split. Qed.

(** * Further properties *)

(** ** The context store, key by key *)

(** X1: [Set] and [Del] touch one key: every other key of the same context
    reads as before. *)
Theorem Context_other_keys (h : store) (l : positive) (key key' : string)
    (v : value) :
  key ≠ key' →
  (∃ h', Set_ h (Some l) key v = Done h'
         ∧ Get h' (Some l) key' = Get h (Some l) key')
  ∧ Get (Del h (Some l) key) (Some l) key' = Get h (Some l) key'.
Proof.
  intros Hne. split.
  - eexists. split; [reflexivity |]. by apply Get_Set_other_key.
  - simpl. by rewrite mapAt_insert, lookup_delete_ne.
Qed.

Lemma Context_other_keys_witness :
  ∃ h', Set_ ∅ (Some 1%positive) "user_id" (VInt 7) = Done h'
        ∧ Get h' (Some 1%positive) "plan" = Get ∅ (Some 1%positive) "plan".
Proof.
  apply (Context_other_keys ∅ 1%positive "user_id" "plan" (VInt 7)).
  discriminate.
Defined.

(** X2: the last write wins.  Setting a key twice leaves the store that the
    second [Set] alone would leave, a [Del] after a [Set] of the same key
    leaves what the [Del] alone would leave, and two [Set]s of different
    keys give the same store in either order. *)
Theorem Context_overwrite (h : store) (l : positive) (key key' : string)
    (v v' : value) :
  ∃ h1, Set_ h (Some l) key v = Done h1
        ∧ Set_ h1 (Some l) key v' = Set_ h (Some l) key v'
        ∧ Del h1 (Some l) key = Del h (Some l) key
        ∧ (key ≠ key' →
           ∃ h2, Set_ h (Some l) key' v' = Done h2
                 ∧ Set_ h1 (Some l) key' v' = Set_ h2 (Some l) key v).
Proof.
  eexists. split; [reflexivity |]. simpl. repeat split.
  - by rewrite mapAt_insert, !insert_insert_eq.
  - by rewrite mapAt_insert, delete_insert_eq, insert_insert_eq.
  - intros Hne. eexists. split; [reflexivity |].
    rewrite !mapAt_insert, !insert_insert_eq.
    by rewrite (insert_insert_ne _ key' key) by done.
Qed.

Lemma Context_overwrite_witness :
  ∃ h1 h2,
    Set_ ∅ (Some 1%positive) "a" (VInt 1) = Done h1
    ∧ Set_ ∅ (Some 1%positive) "b" (VInt 2) = Done h2
    ∧ Set_ h1 (Some 1%positive) "b" (VInt 2)
      = Set_ h2 (Some 1%positive) "a" (VInt 1).
Proof.
  destruct (Context_overwrite ∅ 1%positive "a" "b" (VInt 1) (VInt 2))
    as (h1 & H1 & _ & _ & Hcomm).
  destruct Hcomm as (h2 & H2 & Heq); [discriminate |].
  by exists h1, h2.
Defined.

(** X3: [Get] answers nil both for a key that holds nil and for a key that
    is missing, but the map tells them apart: after [Set(key, nil)] the key
    is present, after [Del(key)] it is not. *)
Theorem Context_nil_value (h : store) (l : positive) (key : string) :
  ∃ h', Set_ h (Some l) key VNil = Done h'
        ∧ Get h' (Some l) key = Get (Del h (Some l) key) (Some l) key
        ∧ mapAt h' l !! key = Some VNil
        ∧ mapAt (Del h (Some l) key) l !! key = None.
Proof.
  eexists. split; [reflexivity |]. simpl.
  by rewrite !mapAt_insert, lookup_insert_eq, lookup_delete_eq.
Qed.


(** X5: the notice holds the client's context itself, not a copy: a [Set]
    through the client after the notice is built shows through the
    notice. *)
Theorem notice_shares_context (W : World) (c : Client.t) (stk : list Frame)
    (message : string) (skip : nat) (h : store) (key : string) (v : value)
    (n : Notice) :
  Client.Context c ≠ None →
  buildNotice W c stk message skip = Done n →
  ∃ h', Set_ h (Client.Context c) key v = Done h'
        ∧ Get h' (request_context (notice_request n)) key = v.
Proof.
  intros Hctx Hn.
  destruct (buildNotice_Done _ _ _ _ _ _ Hn) as (_ & _ & _ & _ & -> & _).
  simpl. destruct (Client.Context c) as [l|]; [|done].
  apply Get_Set_same.
Qed.

Lemma notice_shares_context_witness :
  ∃ n h',
    buildNotice (sampleWorld "/usr/local/go" refused) sampleClient mainStack
      "oh no!" 2 = Done n
    ∧ Set_ ∅ (Client.Context sampleClient) "user_id" (VInt 7) = Done h'
    ∧ Get h' (request_context (notice_request n)) "user_id" = VInt 7.
Proof.
  eexists.
  destruct (notice_shares_context (sampleWorld "/usr/local/go" refused)
              sampleClient mainStack "oh no!" 2 ∅ "user_id" (VInt 7) _
              ltac:(discriminate) eq_refl) as (h' & Hset & Hget).
  exists h'. split; [reflexivity |]. by split.
Defined.

(** ** Construction *)

(** X6: [New] keeps the API key it is given, points the client at the
    default endpoint and gives it a map of its own that was not in the
    store before and has no key at all, so that every [Get] on it answers
    nil; and it leaves every context already in the store as it was. *)
Theorem New_client (W : World) (stk : list Frame) (h : store)
    (apiKey : string) :
  let c := fst (New W stk h apiKey) in
  let h' := snd (New W stk h apiKey) in
  Client.APIKey c = apiKey
  ∧ Client.Endpoint c = DefaultEndpoint
  ∧ (∃ l, Client.Context c = Some l ∧ (l ∉ dom h) ∧ h' !! l = Some ∅
          ∧ ∀ key, mapAt h' l !! key = None)
  ∧ (∀ key, Get h' (Client.Context c) key = VNil)
  ∧ (∀ l key, l ∈ dom h → Get h' (Some l) key = Get h (Some l) key).
Proof.
  unfold New, makeContext. simpl. repeat split.
  - exists (fresh (dom h)). repeat split.
    + apply is_fresh.
    + by rewrite lookup_insert_eq.
    + intros key. by rewrite mapAt_insert.
  - intros key. by rewrite mapAt_insert.
  - intros l key Hl. rewrite mapAt_insert_ne; [done |].
    intros <-. by apply is_fresh in Hl.
Qed.

Lemma New_client_witness :
  let h : store := {[ 1%positive := {[ "plan" := VString "free" ]} ]} in
  Get (snd (New (sampleWorld "/usr/local/go" refused) mainStack h "changeme"))
    (Some 1%positive) "plan"
  = Get h (Some 1%positive) "plan".
Proof.
  intros h.
  apply (New_client (sampleWorld "/usr/local/go" refused) mainStack h
           "changeme").
  apply elem_of_dom. by eexists.
Defined.

(** X7: the detected project root depends on the three outermost frames
    alone.  However deep below them [New] is called, the root is the
    directory of the file of the third frame from the outermost; called
    with just two frames above it, [New] takes the directory of its own
    source file; with fewer, the root is empty. *)
Theorem ProjectRoot_outermost (W : World) (inner : list Frame)
    (a b c : Frame) (h : store) (apiKey : string) :
  Client.ProjectRoot (fst (New W (inner ++ [a; b; c]) h apiKey))
  = Dir W (frame_file a)
  ∧ Client.ProjectRoot (fst (New W [b; c] h apiKey)) = Dir W (LibFile W)
  ∧ Client.ProjectRoot (fst (New W [c] h apiKey)) = ""
  ∧ Client.ProjectRoot (fst (New W [] h apiKey)) = "".
Proof.
  assert (Hroot : ∀ stk, Client.ProjectRoot (fst (New W stk h apiKey))
                         = detectProjectRoot W (frame_New W :: stk)).
  { intros stk. unfold New. by destruct (makeContext h). }
  rewrite !Hroot, !detectProjectRoot_spec. repeat split.
  simpl length. rewrite length_app. simpl length.
  destruct (Nat.ltb_spec (S (length inner + 3)) 3) as [Hlt|_]; [lia |].
  replace (S (length inner + 3) - 3)%nat with (S (length inner)) by lia.
  simpl. rewrite lookup_app_r by lia.
  by rewrite Nat.sub_diag.
Qed.

(** ** Path filtering on absolute roots *)

Lemma absolute_not_bracket (p t : string) :
  absolute p → ¬ startsWith p (String "[" t).
Proof.
  intros [r ->] [rest Hrest]. rewrite !app_String in Hrest.
  by injection Hrest.
Qed.

Lemma filteredPath_miss (W : World) (c : Client.t) (file : string) :
  ¬ startsWith (GOROOT W) file →
  Client.ProjectRoot c = "" ∨ ¬ startsWith (Client.ProjectRoot c) file →
  filteredPath W c file = file.
Proof.
  intros Hmiss Hproj. unfold filteredPath. cbv zeta.
  rewrite (replacePrefix_miss _ _ _ Hmiss).
  case_decide; [done |].
  destruct Hproj as [Hempty|Hmiss']; [done |].
  by apply replacePrefix_miss.
Qed.

(** With absolute roots a path is either left alone, because neither root
    begins it, or comes out beginning with a bracket. *)
Lemma filteredPath_shape (W : World) (c : Client.t) (file : string) :
  absolute (GOROOT W) →
  Client.ProjectRoot c = "" ∨ absolute (Client.ProjectRoot c) →
  (filteredPath W c file = file
   ∧ ¬ startsWith (GOROOT W) file
   ∧ (Client.ProjectRoot c = "" ∨ ¬ startsWith (Client.ProjectRoot c) file))
  ∨ ∃ t, filteredPath W c file = String "[" t.
Proof.
  intros HG HP. unfold filteredPath. cbv zeta.
  destruct (stripPrefix (GOROOT W) file) as [rest|] eqn:Hroot.
  - apply stripPrefix_Some in Hroot as ->.
    rewrite replacePrefix_match. right.
    case_decide; [by exists ("GO_ROOT]" +:+ rest) |].
    destruct HP as [HP|HP]; [done |].
    rewrite replacePrefix_miss; [by exists ("GO_ROOT]" +:+ rest) |].
    rewrite app_String. by apply absolute_not_bracket.
  - apply stripPrefix_None in Hroot.
    rewrite (replacePrefix_miss _ _ _ Hroot).
    case_decide as Hempty; [left; by auto |].
    destruct (stripPrefix (Client.ProjectRoot c) file) as [rest|] eqn:Hproj.
    + apply stripPrefix_Some in Hproj as ->.
      rewrite replacePrefix_match. right.
      by exists ("PROJECT_ROOT]" +:+ rest).
    + left. apply stripPrefix_None in Hproj.
      rewrite (replacePrefix_miss _ _ _ Hproj). by auto.
Qed.

(** X8: on well-formed UTF-8, with the project pattern compiling, an
    absolute runtime root, and a project root that is empty or absolute,
    filtering is idempotent: [filterPath] returns a path, and that path
    passes through [filterPath] unchanged. *)
Theorem filterPath_idempotent (W : World) (c : Client.t) (file : string) :
  regexp_anchored W → initialised W → rootCompiles W c →
  validUTF8 file = true →
  absolute (GOROOT W) →
  Client.ProjectRoot c = "" ∨ absolute (Client.ProjectRoot c) →
  ∃ path, filterPath W c file = Done path ∧ filterPath W c path = Done path.
Proof.
  intros Hlaw Hinit Hroot Hfile HG HP.
  destruct (filterPath_filtered W c file Hlaw Hinit Hroot Hfile) as [H1 Hv].
  exists (filteredPath W c file). split; [done |].
  destruct (filterPath_filtered W c _ Hlaw Hinit Hroot Hv) as [-> _].
  f_equal.
  destruct (filteredPath_shape W c file HG HP) as [(Heq & Hg & Hp)|[t Ht]].
  - rewrite Heq. by apply filteredPath_miss.
  - rewrite Ht. apply filteredPath_miss.
    + by apply absolute_not_bracket.
    + destruct HP as [HP|HP]; [by left | right].
      by apply absolute_not_bracket.
Qed.

Lemma filterPath_idempotent_witness :
  let W := sampleWorld "/usr/local/go" refused in
  ∃ path, filterPath W sampleClient "/home/dev/src/app/x.go" = Done path
          ∧ filterPath W sampleClient path = Done path.
Proof.
  intros W. apply (filterPath_idempotent W sampleClient).
  - apply sample_regexp_anchored.
  - reflexivity.
  - right. by eexists.
  - reflexivity.
  - by exists "usr/local/go".
  - right. by exists "home/dev/src/app".
Defined.

(** X9: when the runtime reports an empty root, its pattern matches the
    empty prefix of every path: on well-formed UTF-8, with an empty project
    root or an absolute one whose pattern compiles, each path gets
    [GO_ROOT] put in front and nothing else happens to it. *)
Theorem filterPath_empty_GOROOT (W : World) (c : Client.t) (file : string) :
  regexp_anchored W → initialised W → rootCompiles W c →
  validUTF8 file = true →
  GOROOT W = "" →
  Client.ProjectRoot c = "" ∨ absolute (Client.ProjectRoot c) →
  filterPath W c file = Done ("[GO_ROOT]" +:+ file).
Proof.
  intros Hlaw Hinit Hroot Hfile HG HP.
  destruct (filterPath_filtered W c file Hlaw Hinit Hroot Hfile) as [-> _].
  f_equal. unfold filteredPath. rewrite HG. cbv zeta.
  rewrite (replacePrefix_match "" file).
  case_decide; [done |].
  destruct HP as [HP|HP]; [done |].
  apply replacePrefix_miss. rewrite app_String.
  by apply absolute_not_bracket.
Qed.

Lemma filterPath_empty_GOROOT_witness :
  filterPath (sampleWorld "" refused) sampleClient "/home/dev/src/app/x.go"
  = Done ("[GO_ROOT]" +:+ "/home/dev/src/app/x.go").
Proof.
  apply (filterPath_empty_GOROOT (sampleWorld "" refused) sampleClient).
  - apply sample_regexp_anchored.
  - reflexivity.
  - right. by eexists.
  - reflexivity.
  - reflexivity.
  - right. by exists "home/dev/src/app".
Defined.

(** ** More on the backtrace *)

(** X10: from one call site, the backtrace of [Reportf] is the backtrace of
    [Report] with one more entry in front, the frame next to the caller's;
    [Report] records all but two of the frames of its call stack, [Reportf]
    all but one. *)
Theorem backtrace_Reportf_Report (W : World) (c : Client.t)
    (stk : list Frame) (e : value) (format : string) (params : list value)
    (nf nr : Notice) :
  Reportf_notice W c stk format params = Done nf →
  Report_notice W c stk e = Done nr →
  ∃ front,
    entriesOf W c (take 1 (drop 1 stk)) = Done front
    ∧ backtraceOf nf = (front ++ backtraceOf nr)%list
    ∧ length (backtraceOf nr) = (length stk - 2)%nat
    ∧ length (backtraceOf nf) = (length stk - 1)%nat.
Proof.
  intros Hnf Hnr.
  destruct (Reportf_notice_Report_notice W c stk e format params nf Hnf)
    as (nr' & front & Hnr' & Hfront & Hbt).
  rewrite Hnr in Hnr'. injection Hnr' as <-.
  exists front. split; [done |]. split; [done |].
  destruct (buildNotice_Done _ _ _ _ _ _ Hnf) as (Hf & _).
  destruct (buildNotice_Done _ _ _ _ _ _ Hnr) as (Hr & _).
  apply entriesOf_length in Hf, Hr. simpl in Hf, Hr.
  rewrite Hf, Hr, !length_drop. done.
Qed.

Lemma backtrace_Reportf_Report_witness :
  ∃ nf nr,
    Reportf_notice (sampleWorld "/usr/local/go" refused) sampleClient
      mainStack "oh %s!" [VString "no"] = Done nf
    ∧ Report_notice (sampleWorld "/usr/local/go" refused) sampleClient
        mainStack (VString "oh no!") = Done nr
    ∧ length (backtraceOf nf) = 2%nat
    ∧ length (backtraceOf nr) = 1%nat.
Proof.
  do 2 eexists. split; [reflexivity |]. split; [reflexivity |].
  destruct (backtrace_Reportf_Report (sampleWorld "/usr/local/go" refused)
              sampleClient mainStack (VString "oh no!") "oh %s!"
              [VString "no"] _ _ eq_refl eq_refl)
    as (front & _ & _ & Hr & Hf).
  by split.
Defined.

(** X11: every entry of a backtrace stands for a frame of the caller's
    stack, two frames further out than its own position: it has that
    frame's line, that frame's file as [filterPath] returns it, and that
    frame's function name, or "unknown" where the function cannot be
    resolved. *)
Theorem backtrace_entry (W : World) (c : Client.t) (stk : list Frame)
    (e : value) (n : Notice) (i : nat) (en : BacktraceEntry) :
  Report_notice W c stk e = Done n →
  backtraceOf n !! i = Some en →
  ∃ fr, stk !! (2 + i)%nat = Some fr
        ∧ entry_number en = frame_line fr
        ∧ filterPath W c (frame_file fr) = Done (entry_file en)
        ∧ (∀ name, frame_func fr = Some name → entry_method en = name)
        ∧ (frame_func fr = None → entry_method en = "unknown").
Proof.
  intros Hn Hi.
  destruct (buildNotice_Done _ _ _ _ _ _ Hn) as (Hbt & _). simpl in Hbt.
  destruct (entriesOf_lookup _ _ _ _ _ _ Hbt Hi) as (fr & Hfr & Hen).
  rewrite lookup_drop in Hfr. exists fr. split; [done |].
  unfold entryOf in Hen.
  destruct (filterPath W c (frame_file fr)) as [file| |]; simpl in Hen;
    try done.
  injection Hen as <-. simpl. repeat split.
  - intros name Hname. by rewrite Hname.
  - intros Hnone. by rewrite Hnone.
Qed.

Lemma backtrace_entry_witness :
  ∃ fr, recoverStack !! 2%nat = Some fr
        ∧ frame_line fr = 20%Z
        ∧ frame_func fr = Some "main.main".
Proof.
  destruct (backtrace_entry (sampleWorld "/usr/local/go" refused) sampleClient
              recoverStack (VString "oh no!") _ 0
              (mkEntry "[PROJECT_ROOT]/main.go" 20 "main.main")
              eq_refl eq_refl)
    as (fr & Hfr & Hline & _ & _ & _).
  exists fr. split; [exact Hfr |].
  injection Hfr as <-. by split.
Defined.

(** ** The host name *)

Lemma entriesOf_withHostname (W : World) (hn : result string) (c : Client.t)
    (frames : list Frame) :
  entriesOf (withHostname W hn) c frames = entriesOf W c frames.
Proof.
  induction frames as [|fr frames IH]; [done |].
  simpl. by rewrite IH.
Qed.

Lemma buildNotice_withHostname (W : World) (c : Client.t) (stk : list Frame)
    (message : string) (skip : nat) (err : error) :
  Hostname W = Fail err →
  buildNotice (withHostname W (Ok "")) c stk message skip
  = buildNotice W c stk message skip.
Proof.
  intros HH. unfold buildNotice. simpl. rewrite HH.
  rewrite !stacktraceFrames_spec. simpl.
  by rewrite entriesOf_withHostname.
Qed.

(** X12: a failing [os.Hostname] is swallowed: the notice goes out with an
    empty host name, and [Report] does what it would do on a machine whose
    host name is the empty string. *)
Theorem Report_without_hostname (W : World) (h : store) (c : Client.t)
    (stk : list Frame) (e : value) (err : error) :
  Hostname W = Fail err →
  (∀ n, Report_notice W c stk e = Done n →
        server_hostname (notice_server n) = "")
  ∧ Report W h c stk e = Report (withHostname W (Ok "")) h c stk e.
Proof.
  intros HH. split.
  - intros n Hn.
    destruct (buildNotice_Done _ _ _ _ _ _ Hn) as (_ & _ & _ & _ & _ & ->).
    simpl. by rewrite HH.
  - unfold Report, Report_notice.
    change (frame_Report (withHostname W (Ok ""))) with (frame_Report W).
    change (Report_msg (withHostname W (Ok "")) e) with (Report_msg W e).
    by rewrite (buildNotice_withHostname W c _ _ 2 err HH).
Qed.

Lemma Report_without_hostname_witness :
  let W := withHostname (sampleWorld "/usr/local/go" (Some created, None))
             (Fail (mkError "hostname: not available")) in
  ∃ n, Report_notice W sampleClient mainStack (VString "oh no!") = Done n
       ∧ server_hostname (notice_server n) = "".
Proof.
  intros W. eexists. split; [reflexivity |].
  apply (proj1 (Report_without_hostname W ∅ sampleClient mainStack
                  (VString "oh no!") (mkError "hostname: not available")
                  eq_refl)).
  reflexivity.
Defined.

(** ** More on delivery *)

(** X13: the request [Report] hands to the HTTP client is the one
    [http.NewRequest] made, with three headers set on it under their
    canonical names: the client's API key as it is under X-Api-Key, and
    application/json under Accept and Content-Type, each as the only value
    of its header.  Every other header, the method, the URL and the body
    are as [http.NewRequest] left them. *)
Theorem Report_request_headers (W : World) (h : store) (c : Client.t)
    (stk : list Frame) (e : value) (n : Notice) (jsonBody : string)
    (req0 : Request) :
  Report_notice W c stk e = Done n →
  Marshal W h n = Ok jsonBody →
  NewRequest W "POST" (Client.Endpoint c) jsonBody = Ok req0 →
  ∃ req, Report_request W h c stk e = Done (Ok req)
    ∧ req_header req !! "X-Api-Key" = Some [Client.APIKey c]
    ∧ req_header req !! "Accept" = Some ["application/json"]
    ∧ req_header req !! "Content-Type" = Some ["application/json"]
    ∧ (∀ name, name ≠ "X-Api-Key" → name ≠ "Accept" →
         name ≠ "Content-Type" →
         req_header req !! name = req_header req0 !! name)
    ∧ req_method req = req_method req0
    ∧ req_url req = req_url req0
    ∧ req_body req = req_body req0.
Proof.
  intros Hn HM HN. unfold Report_request. rewrite Hn. simpl.
  rewrite HM, HN. eexists. split; [reflexivity |]. simpl.
  change (CanonicalMIMEHeaderKey "x-api-key") with "X-Api-Key".
  change (CanonicalMIMEHeaderKey "content-type") with "Content-Type".
  change (CanonicalMIMEHeaderKey "accept") with "Accept".
  repeat split.
  - by rewrite lookup_insert_eq.
  - by rewrite !lookup_insert_ne, lookup_insert_eq by done.
  - by rewrite lookup_insert_ne, lookup_insert_eq by done.
  - intros name H1 H2 H3. by rewrite !lookup_insert_ne by done.
Qed.

Lemma Report_request_headers_witness :
  ∃ req,
    Report_request (sampleWorld "/usr/local/go" refused) ∅ sampleClient
      mainStack (VString "oh no!") = Done (Ok req)
    ∧ req_header req !! "X-Api-Key" = Some ["changeme"].
Proof.
  destruct (Report_request_headers (sampleWorld "/usr/local/go" refused) ∅
              sampleClient mainStack (VString "oh no!") _ "{}"
              {| req_method := "POST"; req_url := DefaultEndpoint;
                 req_header := ∅; req_body := "{}" |}
              eq_refl eq_refl eq_refl)
    as (req & Hreq & Hkey & _).
  by exists req.
Defined.

Lemma Report_Done_ok (W : World) (h : store) (c : Client.t)
    (stk : list Frame) (e : value) (r : Returned) :
  Report W h c stk e = Done r → failure r = None →
  ∃ req res jsonBody,
    Report_request W h c stk e = Done (Ok req)
    ∧ Do W req = (Some res, None)
    ∧ (200 ≤ StatusCode res ≤ 299)%Z
    ∧ Body res = Ok jsonBody
    ∧ Unmarshal_id W jsonBody = Ok (ident r)
    ∧ body r = BodyClosed.
Proof.
  rewrite Report_unfold.
  destruct (Report_request W h c stk e) as [[req|err]| |]; simpl;
    try discriminate; [|by intros [= <-]].
  destruct (Do W req) as [[res|] [err|]] eqn:HDo; try discriminate.
  { by intros [= <-]. }
  destruct (Z.quot (StatusCode res) 100 =? 2)%Z eqn:Hq; simpl.
  2: { by intros [= <-]. }
  apply status_2xx in Hq. unfold extractErrorID.
  destruct (Body res) as [jsonBody|err] eqn:HB; [|by intros [= <-]].
  destruct (Unmarshal_id W jsonBody) as [id|err] eqn:HU; [|by intros [= <-]].
  intros [= <-] _. by exists req, res, jsonBody.
Qed.

(** X14: [Report] returns without an error only when the request went out,
    a response came back without a transport error, its status was from
    200 to 299, its body could be read and parsed, and the identifier
    returned is the one parsed; the body is closed by then. *)
Theorem Report_success (W : World) (h : store) (c : Client.t)
    (stk : list Frame) (e : value) (r : Returned) :
  Report W h c stk e = Done r → failure r = None →
  ∃ req res jsonBody,
    Report_request W h c stk e = Done (Ok req)
    ∧ Do W req = (Some res, None)
    ∧ (200 ≤ StatusCode res ≤ 299)%Z
    ∧ Body res = Ok jsonBody
    ∧ Unmarshal_id W jsonBody = Ok (ident r)
    ∧ body r = BodyClosed.
Proof. apply Report_Done_ok. Qed.

Lemma Report_success_witness :
  ∃ res, (200 ≤ StatusCode res ≤ 299)%Z
         ∧ Unmarshal_id (sampleWorld "/usr/local/go" (Some created, None))
             (match Body res with Ok b => b | Fail _ => "" end)
           = Ok "abc123".
Proof.
  destruct (Report_success (sampleWorld "/usr/local/go" (Some created, None))
              ∅ sampleClient mainStack (VString "oh no!")
              (mkReturned "abc123" None BodyClosed) eq_refl eq_refl)
    as (req & res & jsonBody & _ & _ & Hst & HB & HU & _).
  exists res. split; [exact Hst |]. by rewrite HB.
Defined.

(** X15: reporting an error value and reporting its text as a string are
    the same report: the same notice, the same outcome. *)
Theorem Report_error_as_text (W : World) (Hv : fmt_v_string W) (h : store)
    (c : Client.t) (stk : list Frame) (err : error) :
  Report_notice W c stk (VError err)
  = Report_notice W c stk (VString (Error err))
  ∧ Report W h c stk (VError err) = Report W h c stk (VString (Error err)).
Proof.
  assert (HN : Report_notice W c stk (VError err)
               = Report_notice W c stk (VString (Error err))).
  { unfold Report_notice. simpl. by rewrite Hv. }
  split; [done |]. unfold Report. by rewrite HN.
Qed.

Lemma Report_error_as_text_witness :
  Report (sampleWorld "/usr/local/go" (Some created, None)) ∅ sampleClient
    mainStack (VError (mkError "disk full"))
  = Report (sampleWorld "/usr/local/go" (Some created, None)) ∅ sampleClient
      mainStack (VString "disk full").
Proof.
  apply (Report_error_as_text _ (sprintf_v_string _ _) ∅ sampleClient
           mainStack (mkError "disk full")).
Defined.

Lemma entriesOf_PanicWith (W : World) (c : Client.t) (frames : list Frame)
    (v : value) :
  entriesOf W c frames = PanicWith v ↔ frames ≠ [] ∧ rootPanics W c v.
Proof.
  split.
  - destruct frames as [|fr frames]; [discriminate |].
    destruct (filterPath_cases W c (frame_file fr))
      as [[Hroot _]|(v' & Hp & _)].
    + destruct (entriesOf_returns W c (fr :: frames) Hroot) as [ens ->].
      discriminate.
    + rewrite (entriesOf_panics _ _ _ _ _ Hp). by intros [= <-].
  - intros [Hne Hp]. destruct frames as [|fr frames]; [done |].
    by apply entriesOf_panics.
Qed.

Lemma entriesOf_no_fault (W : World) (c : Client.t) (frames : list Frame)
    (reason : string) :
  entriesOf W c frames ≠ Panic reason.
Proof.
  destruct frames as [|fr frames]; [discriminate |].
  destruct (filterPath_cases W c (frame_file fr))
    as [[Hroot _]|(v' & Hp & _)].
  - destruct (entriesOf_returns W c (fr :: frames) Hroot) as [ens ->].
    discriminate.
  - by rewrite (entriesOf_panics _ _ _ _ _ Hp).
Qed.

Lemma Report_notice_PanicWith (W : World) (c : Client.t) (stk : list Frame)
    (e : value) (v : value) :
  Report_notice W c stk e = PanicWith v
  ↔ (2 < length stk)%nat ∧ rootPanics W c v.
Proof.
  pose proof (buildNotice_backtrace W c (frame_Report W :: stk)
                (Report_msg W e) 2) as Hbt.
  fold (Report_notice W c stk e) in Hbt. simpl in Hbt.
  assert (Hdrop : drop 2 stk ≠ [] ↔ (2 < length stk)%nat).
  { rewrite <- length_zero_iff_nil, length_drop. lia. }
  rewrite <- Hdrop, <- entriesOf_PanicWith, <- Hbt.
  destruct (Report_notice W c stk e); simpl; split; congruence.
Qed.

Lemma Report_notice_no_fault (W : World) (c : Client.t) (stk : list Frame)
    (e : value) (reason : string) :
  Report_notice W c stk e ≠ Panic reason.
Proof.
  pose proof (buildNotice_backtrace W c (frame_Report W :: stk)
                (Report_msg W e) 2) as Hbt.
  fold (Report_notice W c stk e) in Hbt. simpl in Hbt.
  intros Hn. rewrite Hn in Hbt. simpl in Hbt. symmetry in Hbt.
  by apply entriesOf_no_fault in Hbt.
Qed.

Lemma Report_PanicWith_iff (W : World) (h : store) (c : Client.t)
    (stk : list Frame) (e : value) (v : value) :
  Report W h c stk e = PanicWith v
  ↔ (2 < length stk)%nat ∧ rootPanics W c v.
Proof.
  rewrite <- (Report_notice_PanicWith W c stk e v).
  rewrite Report_unfold. unfold Report_request.
  destruct (Report_notice W c stk e) as [n| |]; simpl;
    try (split; congruence).
  split; [|discriminate].
  destruct (Marshal W h n); [|discriminate].
  destruct (NewRequest W _ _ _) as [req|]; [|discriminate].
  unfold return_closing.
  destruct (Do W _) as [[res|] [err|]]; try discriminate.
  destruct (negb _); discriminate.
Qed.

(** X16: [Report] panics in two situations and no other.  It panics with a
    value [v] exactly when its call stack is more than two frames deep, so
    that a frame is recorded, and [regexp.MustCompile] panics with [v] on
    the client's non-empty project root.  It is stopped by a fault of the
    runtime exactly when the request was built and sent and the HTTP
    client came back without a response. *)
Theorem Report_panics_iff (W : World) (h : store) (c : Client.t)
    (stk : list Frame) (e : value) :
  (∀ v, Report W h c stk e = PanicWith v
        ↔ (2 < length stk)%nat ∧ rootPanics W c v)
  ∧ ((∃ reason, Report W h c stk e = Panic reason)
     ↔ ∃ req, Report_request W h c stk e = Done (Ok req)
              ∧ fst (Do W req) = None).
Proof.
  split; [apply Report_PanicWith_iff |].
  rewrite Report_unfold. split.
  - intros [reason Hp].
    destruct (Report_request W h c stk e) as [[req|err]|r|v] eqn:Hreq;
      simpl in Hp; try discriminate.
    + exists req. split; [done |].
      destruct (Do W req) as [[res|] [err|]]; try done.
      by destruct (negb _).
    + unfold Report_request in Hreq.
      destruct (Report_notice W c stk e) as [n| |] eqn:Hn; try done.
      by apply Report_notice_no_fault in Hn.
  - intros (req & -> & HDo). simpl.
    destruct (Do W req) as [[res|] err]; [discriminate |]. by eexists.
Qed.

(** X17: an error met before the status is looked at is returned as it is,
    with an empty identifier: a notice that cannot be serialized and a
    request that cannot be built end the call before anything is sent, and
    an error from the HTTP client that comes with a response wins over the
    response, whose body is closed unread, whatever its status. *)
Theorem Report_passes_errors (W : World) (h : store) (c : Client.t)
    (stk : list Frame) (e : value) (err : error) :
  (∀ n, Report_notice W c stk e = Done n → Marshal W h n = Fail err →
   Report W h c stk e = Done (mkReturned "" (Some err) NoResponse))
  ∧ (∀ n jsonBody, Report_notice W c stk e = Done n →
       Marshal W h n = Ok jsonBody →
       NewRequest W "POST" (Client.Endpoint c) jsonBody = Fail err →
       Report W h c stk e = Done (mkReturned "" (Some err) NoResponse))
  ∧ (∀ req res, Report_request W h c stk e = Done (Ok req) →
       Do W req = (Some res, Some err) →
       Report W h c stk e = Done (mkReturned "" (Some err) BodyClosed)).
Proof.
  repeat split.
  - intros n. apply Report_marshal_failure.
  - intros n jsonBody Hn HM HN. unfold Report. rewrite Hn. simpl.
    by rewrite HM, HN.
  - intros req res Hreq HDo. rewrite Report_unfold, Hreq. simpl.
    by rewrite HDo.
Qed.

Lemma Report_passes_errors_witness :
  let W := withMarshal (sampleWorld "/usr/local/go" refused)
             (λ _ _, Fail (mkError "json: unsupported type: chan int")) in
  Report W ∅ sampleClient mainStack (VString "oh no!")
  = Done (mkReturned "" (Some (mkError "json: unsupported type: chan int"))
            NoResponse).
Proof.
  intros W.
  eapply (proj1 (Report_passes_errors W ∅ sampleClient mainStack
                   (VString "oh no!")
                   (mkError "json: unsupported type: chan int")));
    reflexivity.
Defined.

(** ** The example program *)

Lemma Report_notice_returns (W : World) (c : Client.t) (stk : list Frame)
    (e : value) :
  rootCompiles W c → ∃ n, Report_notice W c stk e = Done n.
Proof.
  intros Hroot.
  destruct (entriesOf_returns W c (drop 2 stk) Hroot) as [bt Hbt].
  destruct (buildNotice_returns W c (frame_Report W :: stk) (Report_msg W e)
              2 bt Hbt) as (n & Hn & _).
  by exists n.
Qed.

Lemma Report_no_response (W : World) (h : store) (c : Client.t)
    (stk : list Frame) (e : value) :
  rootCompiles W c →
  (∀ h n, ∃ jsonBody, Marshal W h n = Ok jsonBody) →
  (∀ method url jsonBody, ∃ req, NewRequest W method url jsonBody = Ok req) →
  (∀ req, fst (Do W req) = None) →
  Report W h c stk e
  = Panic "invalid memory address or nil pointer dereference".
Proof.
  intros Hroot HM HN HDo.
  destruct (Report_notice_returns W c stk e Hroot) as [n Hn].
  destruct (HM h n) as [jsonBody HM'].
  destruct (HN "POST" (Client.Endpoint c) jsonBody) as [req HN'].
  eapply Report_nil_response; [|apply HDo].
  unfold Report_request. rewrite Hn. simpl. by rewrite HM', HN'.
Qed.

(** X18: the example program returns from [main] only if the report the
    handler made of the recovered value, "oh no!" or the runtime error of
    a fault in [Reportf], was sent and the HTTP client's answer to that
    request had a status from 200 to 299 and a body that parses; its last
    line of output then names the identifier parsed.  In every other case
    it ends in an unrecovered panic whose value is the delivery error,
    printed just before, the runtime fault of [Report], or what
    [regexp.MustCompile] panics with on the client's project root. *)
Theorem exampleMain_ends (W : World) (R : Runtime) (P : Program)
    (h0 : store) :
  let hb := fst (New W (initStack R) h0 "changeme") in
  let h := snd (New W (initStack R) h0 "changeme") in
  (∀ out, exampleMain W R P h0 = Exit0 out →
     ∃ between stackAtPanic rec req res jsonBody id,
       (rec = VString "oh no!" ∨ ∃ reason, rec = runtimeError reason)
       ∧ Report_request W h hb (handlerStack P between stackAtPanic) rec
         = Done (Ok req)
       ∧ Do W req = (Some res, None)
       ∧ (200 ≤ StatusCode res ≤ 299)%Z
       ∧ Body res = Ok jsonBody
       ∧ Unmarshal_id W jsonBody = Ok id
       ∧ last out
         = Some (Sprintf W ("Recovered and reported error %s" +:+ newline)
                   [VString id]))
  ∧ (∀ out v, exampleMain W R P h0 = Crash out v →
       (∃ err, v = VError err
               ∧ last out
                 = Some (Sprintf W ("Failed to report error %s" +:+ newline)
                           [VError err]))
       ∨ (∃ reason, v = runtimeError reason)
       ∨ rootPanics W hb v).
Proof.
  unfold exampleMain.
  destruct (New W (initStack R) h0 "changeme") as [hb h]. simpl.
  assert (Hhandler : ∀ between stackAtPanic rec pre,
    (∀ out, reportPanic W h hb P between stackAtPanic rec pre = Exit0 out →
       ∃ req res jsonBody id,
         Report_request W h hb (handlerStack P between stackAtPanic) rec
         = Done (Ok req)
         ∧ Do W req = (Some res, None)
         ∧ (200 ≤ StatusCode res ≤ 299)%Z
         ∧ Body res = Ok jsonBody
         ∧ Unmarshal_id W jsonBody = Ok id
         ∧ last out
           = Some (Sprintf W ("Recovered and reported error %s" +:+ newline)
                     [VString id]))
    ∧ (∀ out v, reportPanic W h hb P between stackAtPanic rec pre
                = Crash out v →
         (∃ err, v = VError err
                 ∧ last out
                   = Some (Sprintf W ("Failed to report error %s" +:+ newline)
                             [VError err]))
         ∨ (∃ reason, v = runtimeError reason)
         ∨ rootPanics W hb v)).
  { intros between stackAtPanic rec pre. unfold reportPanic.
    destruct (Report W h hb _ rec) as [r|reason|v'] eqn:HR.
    - destruct (failure r) as [err|] eqn:Hf.
      + split; [discriminate |]. intros out v [= <- <-]. left.
        exists err. by rewrite last_snoc.
      + split; [|discriminate]. intros out [= <-].
        destruct (Report_Done_ok _ _ _ _ _ _ HR Hf)
          as (req & res & jsonBody & Hreq & HDo & Hst & HB & HU & _).
        exists req, res, jsonBody, (ident r). by rewrite last_snoc.
    - split; [discriminate |]. intros out v [= <- <-].
      right. left. by eexists.
    - split; [discriminate |]. intros out v [= <- <-].
      right. right. by apply Report_PanicWith_iff in HR as [_ HR]. }
  destruct (Reportf W h hb _ _ _) as [r|reason|v'] eqn:HRf.
  - split.
    + intros out Hout.
      destruct (proj1 (Hhandler _ _ _ _) out Hout)
        as (req & res & jsonBody & id & Hrest).
      exists (panicFrames R), (mainFrame P (line_panic P) :: mainCallers R),
        (VString "oh no!"), req, res, jsonBody, id.
      split; [by left | done].
    + apply Hhandler.
  - split.
    + intros out Hout.
      destruct (proj1 (Hhandler _ _ _ _) out Hout)
        as (req & res & jsonBody & id & Hrest).
      eexists _, _, (runtimeError reason), req, res, jsonBody, id.
      split; [right; by eexists | exact Hrest].
    + apply Hhandler.
  - split; [|apply Hhandler].
    intros out Hout. exfalso.
    unfold Reportf in HRf. apply Report_PanicWith_iff in HRf as [_ Hp].
    unfold reportPanic in Hout.
    rewrite (proj2 (Report_PanicWith_iff W h hb _ v' v')) in Hout;
      [discriminate |].
    split; [|done]. unfold handlerStack, compileStack.
    simpl. rewrite !length_app. simpl. lia.
Qed.

Lemma exampleMain_ends_witness :
  ∃ req res jsonBody id,
    Do (sampleWorld "/usr/local/go" (Some created, None)) req
    = (Some res, None)
    ∧ (200 ≤ StatusCode res ≤ 299)%Z
    ∧ Body res = Ok jsonBody
    ∧ Unmarshal_id (sampleWorld "/usr/local/go" (Some created, None)) jsonBody
      = Ok id.
Proof.
  destruct (proj1 (exampleMain_ends
                     (sampleWorld "/usr/local/go" (Some created, None))
                     sampleRuntime (closureProgram "/home/dev/src/app/main.go")
                     ∅)
              ["Recovered and reported error abc123" +:+ newline] eq_refl)
    as (between & stackAtPanic & rec & req & res & jsonBody & id & _ & _
        & HDo & Hst & HB & HU & _).
  by exists req, res, jsonBody, id.
Defined.

(** X19: when the HTTP client gets no response at all, the example program
    prints nothing and ends in an unrecovered panic: the fault in [Reportf]
    takes the place of [panic("oh no!")], the handler recovers it, and its
    own [Report] faults again.  This is for a client whose project root is
    empty or has a pattern that compiles. *)
Theorem exampleMain_no_response (W : World) (R : Runtime) (P : Program)
    (h0 : store) :
  rootCompiles W (fst (New W (initStack R) h0 "changeme")) →
  (∀ h n, ∃ jsonBody, Marshal W h n = Ok jsonBody) →
  (∀ method url jsonBody, ∃ req, NewRequest W method url jsonBody = Ok req) →
  (∀ req, fst (Do W req) = None) →
  exampleMain W R P h0
  = Crash [] (runtimeError "invalid memory address or nil pointer dereference").
Proof.
  intros Hroot HM HN HDo. unfold exampleMain.
  destruct (New W (initStack R) h0 "changeme") as [hb h]. simpl in Hroot.
  unfold Reportf, reportPanic.
  by rewrite !Report_no_response.
Qed.

Lemma exampleMain_no_response_witness :
  exampleMain (sampleWorld "/usr/local/go" refused) sampleRuntime
    (namedProgram "/home/dev/src/app/main.go") ∅
  = Crash [] (runtimeError "invalid memory address or nil pointer dereference").
Proof.
  apply exampleMain_no_response.
  - right. by eexists.
  - intros h n. by eexists.
  - intros method url jsonBody. by eexists.
  - intros req. reflexivity.
Defined.

(** ** Frame capture at any depth *)

(** X20: [stacktraceFrames(skip)] records the frames from index [skip] of
    the stack it sees, its own frame at index 0, in order from the inside
    out; asked to skip more frames than there are, it records nothing. *)
Theorem stacktraceFrames_from (W : World) (c : Client.t) (stk : list Frame)
    (skip extra : nat) :
  stacktraceFrames W c stk skip
  = entriesOf W c (drop skip (frame_stacktraceFrames W :: stk))
  ∧ stacktraceFrames W c stk (S (length stk) + extra) = Done [].
Proof.
  unfold stacktraceFrames.
  rewrite !stacktraceLoop_spec by (simpl; lia). simpl app.
  rewrite !bind_Done. split; [done |].
  rewrite drop_ge by (simpl; lia). done.
Qed.
